(** * bitwarden_cli_toolkit: transport, session and permission inheritance

    A shallow embedding of [bitwarden_cli_toolkit/bwcli_wrapper.py] (class
    [BWCli]) and of [inherit_permissions] from
    [bitwarden_cli_toolkit/__main__.py], with the key obfuscation of
    [obfuscation.py] and the dotted paths and the choice of encrypted keys
    of [configuration.py].

    Conventions of the embedding.
    - A Python value that travels through the client (decoded JSON, raw
      command output, [None]) is a [json]; [None] is [JNull]. Numbers are
      integers: the client inspects none.
    - A Python [str] is a [string] whose characters are code points below
      256; [strip] removes the code points [str.strip()] removes in that
      range.
    - The mutable things the code touches live in one [State]: the [BWCli]
      object, [os.environ], the outside world (vault executable, REST
      sidecar, [Requestor] object) and the window of the inheritance dialog.
      [trace] is a ghost field: the calls made to the outside world, oldest
      first.
    - The outside world is a parameter ([Vault]): [command_runner] and the
      [Requestor] methods are total functions of the call and of the world;
      [json.loads], [json.dumps] and [repr] are parameters too ([PyLib]).
    - Exceptions are values ([Raise]); a function that raises keeps the
      effects it made before raising.
    - [logger] calls are sinks with no effect on control flow and are left
      out; an expression evaluated only to build a log message is kept when
      it can raise. *)

From Stdlib Require Import ZArith Ascii String.
From stdpp Require Import gmap strings list pretty.

Local Open Scope string_scope.
Local Open Scope list_scope.
#[local] Set Warnings "-register-all".

(** ** Python strings *)

Module PyStr.

(** Code points below 256 for which [str.isspace()] holds. *)
Definition isspace (c : ascii) : bool :=
  let n := nat_of_ascii c in
  ((9 <=? n)%nat && (n <=? 13)%nat) || ((28 <=? n)%nat && (n <=? 32)%nat)
  || (n =? 133)%nat || (n =? 160)%nat.

Fixpoint lstrip (s : string) : string :=
  match s with
  | EmptyString => EmptyString
  | String c r => if isspace c then lstrip r else s
  end.

Fixpoint rstrip (s : string) : string :=
  match s with
  | EmptyString => EmptyString
  | String c r =>
      match rstrip r with
      | EmptyString => if isspace c then EmptyString else String c EmptyString
      | r' => String c r'
      end
  end.

(** [s.strip()] *)
Definition strip (s : string) : string := rstrip (lstrip s).

(** Truth value of a [str]: the empty string is falsy. *)
Definition nonempty (s : string) : bool :=
  match s with EmptyString => false | String _ _ => true end.

(** [sep.join(l)] on a list of [str]. *)
Fixpoint join (sep : string) (l : list string) : string :=
  match l with
  | [] => ""
  | [x] => x
  | x :: r => x +:+ sep +:+ join sep r
  end.

(** The line feed, for the [\n] of the source's string literals. *)
Definition LF : string := String (ascii_of_nat 10) EmptyString.

End PyStr.

(** ** Python values *)

Inductive json : Type :=
| JNull
| JBool (b : bool)
| JInt (z : Z)
| JStr (s : string)
| JArr (items : list json)
| JObj (fields : list (string * json)).

(** A [dict] keeps insertion order: an association list, first binding wins. *)
Abbreviation dict := (list (string * json)).

Inductive exn : Type :=
| KeyError (key : string)
| TypeError (msg : string)
| AttributeError (msg : string).

Inductive outcome (A : Type) : Type :=
| Ret (a : A)
| Raise (e : exn).
Arguments Ret {A} a.
Arguments Raise {A} e.

Module Py.

(** [bool(v)] *)
Definition truthy (v : json) : bool :=
  match v with
  | JNull => false
  | JBool b => b
  | JInt z => negb (z =? 0)%Z
  | JStr s => PyStr.nonempty s
  | JArr l => match l with [] => false | _ => true end
  | JObj d => match d with [] => false | _ => true end
  end.

(** Truth value of an optional [str] ([None] and [""] are falsy). *)
Definition truthy_str (o : option string) : bool :=
  match o with Some s => PyStr.nonempty s | None => false end.

Definition type_name (v : json) : string :=
  match v with
  | JNull => "NoneType"
  | JBool _ => "bool"
  | JInt _ => "int"
  | JStr _ => "str"
  | JArr _ => "list"
  | JObj _ => "dict"
  end.

Fixpoint dict_get (d : dict) (k : string) : option json :=
  match d with
  | [] => None
  | (k', v) :: r => if String.eqb k' k then Some v else dict_get r k
  end.

(** [d[k] = v]: an existing key keeps its place, a new one goes last. *)
Fixpoint dict_set (d : dict) (k : string) (v : json) : dict :=
  match d with
  | [] => [(k, v)]
  | (k', v') :: r =>
      if String.eqb k' k then (k', v) :: r else (k', v') :: dict_set r k v
  end.

(** [v[k]] with a [str] subscript. *)
Definition getitem (v : json) (k : string) : outcome json :=
  match v with
  | JObj d =>
      match dict_get d k with
      | Some x => Ret x
      | None => Raise (KeyError k)
      end
  | JArr _ => Raise (TypeError "list indices must be integers or slices, not str")
  | JStr _ => Raise (TypeError "string indices must be integers, not 'str'")
  | _ => Raise (TypeError ("'" +:+ type_name v +:+ "' object is not subscriptable"))
  end.

(** [v[k] = x] with a [str] subscript. *)
Definition setitem (v : json) (k : string) (x : json) : outcome json :=
  match v with
  | JObj d => Ret (JObj (dict_set d k x))
  | JArr _ => Raise (TypeError "list indices must be integers or slices, not str")
  | _ => Raise (TypeError ("'" +:+ type_name v
                           +:+ "' object does not support item assignment"))
  end.

(** [v == s] for a [str] literal [s]. *)
Definition eq_str (v : json) (s : string) : bool :=
  match v with JStr t => String.eqb t s | _ => false end.

(** [v in [s1, s2, ...]] for a list of [str] literals. *)
Definition in_strs (v : json) (l : list string) : bool :=
  existsb (eq_str v) l.

(** [v is True] *)
Definition is_True (v : json) : bool :=
  match v with JBool true => true | _ => false end.

(** [str(exc)] *)
Definition exn_str (e : exn) : string :=
  match e with
  | KeyError k => "'" +:+ k +:+ "'"
  | TypeError m => m
  | AttributeError m => m
  end.

End Py.

(** ** The client object, the process state and the outside world *)

(** The attributes of a [BWCli] instance. [_requestor] exists exactly when
    [use_rest] was set at construction; its own state is part of the world. *)
Record BWCli : Type := mkBWCli {
  bw_executable : string;
  _session : option string;
  _username : string;
  _password : string;
  use_rest : bool;
  _host : string;
  _port : Z;
  _rest_is_running : bool
}.

(** What [command_runner] is given: an argument list (an element may be
    [None]) or one shell line. Every call passes [shell=True,
    encoding="utf-8"]. *)
Inductive command : Type :=
| Argv (argv : list (option string))
| Shell (line : string).

(** Calls that leave the client, with the environment a child process
    inherits. *)
Inductive event : Type :=
| Exec (cmd : command) (env : gmap string string)
| RestSession (endpoint : string)
| RestCall (endpoint action : string) (data : json)
| ServerThread
| Popen (argv : list string) (env : gmap string string)
| AtExit (pid : Z).

Inductive popup : Type :=
| Popup (msg : string)
| PopupError (msg : string).

(** The two elements of the inheritance dialog that the code writes to. *)
Record Window : Type := mkWindow {
  progress_text : string;
  output : string
}.

Record State (W : Type) : Type := mkState {
  self : BWCli;
  environ : gmap string string;
  world : W;
  trace : list event;
  window : Window;
  popups : list popup
}.
Arguments mkState {W}.
Arguments self {W}.
Arguments environ {W}.
Arguments world {W}.
Arguments trace {W}.
Arguments window {W}.
Arguments popups {W}.

(** The vault executable behind [command_runner] and [subprocess.Popen]
    (which gives the process id), and the sidecar behind the [Requestor]
    object. A child process reads the environment and cannot change its
    parent's. *)
Class Vault (W : Type) : Type := {
  command_runner : command -> gmap string string -> W -> Z * string * W;
  popen : list string -> gmap string string -> W -> Z * W;
  api_session : W -> bool;
  create_session : string -> W -> W;
  requestor : string -> string -> json -> W -> json * W
}.

(** [json.loads] ([None] for [JSONDecodeError]), [json.dumps] with
    [separators=(",", ":")], and [repr] for values that are not [str]. *)
Class PyLib : Type := {
  json_loads : string -> option json;
  json_dumps : dict -> string;
  repr : json -> string
}.

(** [str(v)], as an f-string formats a value. *)
Definition format `{PyLib} (v : json) : string :=
  match v with JStr s => s | _ => repr v end.

(** [f"{o}"] for an optional [str]. *)
Definition format_opt (o : option string) : string :=
  match o with Some s => s | None => "None" end.

Section Client.

Context {W : Type} {V : Vault W} {L : PyLib}.

(** *** State and exceptions *)

Definition M (A : Type) : Type := State W -> outcome A * State W.

Definition ret {A} (a : A) : M A := fun st => (Ret a, st).

Definition raise {A} (e : exn) : M A := fun st => (Raise e, st).

Definition bind {A B} (m : M A) (k : A -> M B) : M B :=
  fun st =>
    match m st with
    | (Ret a, st') => k a st'
    | (Raise e, st') => (Raise e, st')
    end.

(** [try: m] / [except Exception as exc: h exc] *)
Definition try_except {A} (m : M A) (h : exn -> M A) : M A :=
  fun st =>
    match m st with
    | (Ret a, st') => (Ret a, st')
    | (Raise e, st') => h e st'
    end.

Definition lift {A} (o : outcome A) : M A := fun st => (o, st).

Definition gets {A} (f : State W -> A) : M A := fun st => (Ret (f st), st).

Definition modify (f : State W -> State W) : M unit :=
  fun st => (Ret tt, f st).

#[local] Instance M_ret : MRet M := @ret.
#[local] Instance M_bind : MBind M := fun A B k m => bind m k.

Definition set_session (s : option string) (st : State W) : State W :=
  let c := self st in
  mkState (mkBWCli (bw_executable c) s (_username c) (_password c)
             (use_rest c) (_host c) (_port c) (_rest_is_running c))
    (environ st) (world st) (trace st) (window st) (popups st).

Definition set_environ (e : gmap string string) (st : State W) : State W :=
  mkState (self st) e (world st) (trace st) (window st) (popups st).

Definition set_world (w : W) (st : State W) : State W :=
  mkState (self st) (environ st) w (trace st) (window st) (popups st).

Definition record (e : event) (st : State W) : State W :=
  mkState (self st) (environ st) (world st) (trace st ++ [e])
    (window st) (popups st).

Definition set_window (w : Window) (st : State W) : State W :=
  mkState (self st) (environ st) (world st) (trace st) w (popups st).

Definition add_popup (p : popup) (st : State W) : State W :=
  mkState (self st) (environ st) (world st) (trace st) (window st)
    (popups st ++ [p]).

(** [exit_code, output = command_runner(cmd, shell=True, encoding="utf-8")] *)
Definition call_command_runner (cmd : command) : M (Z * string) :=
  fun st =>
    let '(exit_code, out, w) := command_runner cmd (environ st) (world st) in
    (Ret (exit_code, out), set_world w (record (Exec cmd (environ st)) st)).

(** [process = subprocess.Popen(argv)]; the result is [process.pid]. *)
Definition call_popen (argv : list string) : M Z :=
  fun st =>
    let '(pid, w) := popen argv (environ st) (world st) in
    (Ret pid, set_world w (record (Popen argv (environ st)) st)).

(** [self._rest_is_running = True] *)
Definition set_rest_is_running (st : State W) : State W :=
  let c := self st in
  mkState (mkBWCli (bw_executable c) (_session c) (_username c) (_password c)
             (use_rest c) (_host c) (_port c) true)
    (environ st) (world st) (trace st) (window st) (popups st).

(** [self._requestor.requestor(endpoint=path, action=action, data=data)] *)
Definition call_requestor (path action : string) (data : json) : M json :=
  fun st =>
    let '(result, w) := requestor path action data (world st) in
    (Ret result, set_world w (record (RestCall path action data) st)).

(** *** Transport *)

(** [BWCli.run(args, with_session=True, raw=False)] *)
Definition run (args : list (option string)) (with_session raw : bool)
  : M json :=
  cli ← gets self;
  match _session cli with
  | Some tok =>
      if with_session && PyStr.nonempty tok
      then modify (fun st => set_environ (<["BW_SESSION" := tok]> (environ st)) st)
      else ret tt
  | None => ret tt
  end;;
  '(exit_code, out) ← call_command_runner (Argv (Some (bw_executable cli) :: args));
  (if Py.truthy_str (_session cli)
   then modify (fun st => set_environ (delete "BW_SESSION" (environ st)) st)
   else ret tt);;
  if (exit_code =? 0)%Z then
    if raw then ret (JStr out)
    else match json_loads out with
         | Some v => ret v
         | None => ret JNull
         end
  else ret JNull.

(** The object kinds [run_as_rest] unwraps as a single object. *)
Definition single_object_kinds : list string :=
  ["item"; "username"; "password"; "uri"; "totp"; "notes"; "exposed";
   "attachment"; "folder"; "collection"; "org-collection"; "organization";
   "template"; "fingerprint"; "send"].

(** Lines 121-150 of [run_as_rest]: what is returned for the result of
    the request. Falling off the end of the method returns [None]. *)
Definition unwrap_response (result : json) : outcome json :=
  if Py.truthy result then
    match Py.getitem result "success" with
    | Raise e => Raise e
    | Ret success =>
        if Py.is_True success then
          match Py.getitem result "data" with
          | Raise e => Raise e
          | Ret d =>
              match Py.getitem d "object" with
              | Raise e => Raise e
              | Ret o =>
                  if Py.eq_str o "list" then Py.getitem d "data"
                  else if Py.in_strs o single_object_kinds then Ret d
                  else Ret JNull
              end
          end
        else Ret JNull
    end
  else Ret JNull.

(** [BWCli.run_as_rest(path, data=None)] *)
Definition run_as_rest (path : string) (data : json) : M json :=
  cli ← gets self;
  (if use_rest cli then ret tt
   else raise (AttributeError "'BWCli' object has no attribute '_requestor'"));;
  has_session ← gets (fun st => api_session (world st));
  (if negb has_session
   then modify (fun st => set_world (create_session "/status" (world st))
                            (record (RestSession "/status") st))
   else ret tt);;
  let action := if Py.truthy data then "update" else "read" in
  result ← call_requestor path action data;
  lift (unwrap_response result).

(** *** Session *)

(** [BWCli.status()]: [Some true] unlocked, [Some false] locked, [None]
    unauthenticated or unknown. *)
Definition status : M (option bool) :=
  st ← run [Some "status"] true false;
  if Py.truthy st then
    s ← lift (Py.getitem st "status");
    if Py.eq_str s "locked" then ret (Some false)
    else
      s ← lift (Py.getitem st "status");
      if Py.eq_str s "unlocked" then ret (Some true)
      else
        s ← lift (Py.getitem st "status");
        if Py.eq_str s "unauthenticated" then ret None
        else ret None
  else ret None.

(** [BWCli.logout()] *)
Definition logout : M bool :=
  result ← run [Some "logout"] true true;
  if Py.truthy result then
    modify (set_session None);;
    ret true
  else ret false.

(** [BWCli.config(server_url=None)] *)
Definition config (server_url : option string) : M json :=
  s ← status;
  match s with
  | Some _ => _ ← logout; ret tt
  | None => ret tt
  end;;
  let args := [Some "config"; Some "server"] in
  if Py.truthy_str server_url then run (args ++ [server_url]) true true
  else run args true false.

(** [result.strip()] *)
Definition py_strip (v : json) : outcome string :=
  match v with
  | JStr s => Ret (PyStr.strip s)
  | _ => Raise (AttributeError ("'" +:+ Py.type_name v
                                +:+ "' object has no attribute 'strip'"))
  end.

(** [BWCli.unlock()] *)
Definition unlock : M bool :=
  cli ← gets self;
  result ← run [Some "unlock"; Some "--raw"; Some (_password cli)] true true;
  if Py.truthy result then
    tok ← lift (py_strip result);
    modify (set_session (Some tok));;
    ret true
  else ret false.

(** Lines 77-106: the body of [run_server]. [Some b] is [return b],
    [None] is reaching the end of the method. *)
Definition run_server_body : M (option bool) :=
  cli ← gets self;
  match _session cli with
  | Some tok =>
      if PyStr.nonempty tok
      then modify (fun st => set_environ (<["BW_SESSION" := tok]> (environ st)) st)
      else ret tt
  | None => ret tt
  end;;
  if negb (use_rest cli) then ret (Some false)
  else if _rest_is_running cli then ret (Some true)
  else
    pid ← call_popen [bw_executable cli; "serve"; "--hostname"; _host cli;
                      "--port"; pretty (_port cli)];
    modify set_rest_is_running;;
    (if Py.truthy_str (_session cli)
     then modify (fun st => set_environ (delete "BW_SESSION" (environ st)) st)
     else ret tt);;
    modify (record (AtExit pid));;
    ret None.

(** A call [self.run_server()]. The method is wrapped by
    [ofunctions.threading.threaded]: the call starts a thread that runs
    [run_server_body] and returns a [concurrent.futures.Future] at once,
    without waiting for the body. The result here is the truth value of
    the returned object, and a [Future] is truthy. The steps of the thread
    are not interleaved with the caller's. *)
Definition run_server : M bool :=
  modify (record ServerThread);;
  ret true.

(** The argument list of the login with username and password. *)
Definition login_args (cli : BWCli) : list (option string) :=
  [Some "login"; Some "--raw"]
  ++ (if PyStr.nonempty (_username cli) then [Some (_username cli)] else [])
  ++ (if PyStr.nonempty (_password cli) then [Some (_password cli)] else []).

(** Lines 282-297 of [login_as_user]: the login with username and
    password. *)
Definition login_with_password : M bool :=
  cli ← gets self;
  result ← run (login_args cli) true true;
  if Py.truthy result then
    tok ← lift (py_strip result);
    modify (set_session (Some tok));;
    started ← run_server;
    if negb started then ret false else ret true
  else ret false.

(** [BWCli.login_as_user()] *)
Definition login_as_user : M bool :=
  s ← status;
  match s with
  | Some true =>
      started ← run_server;
      if negb started then ret false else ret true
  | None =>
      modify (set_session None);;
      login_with_password
  | Some false =>
      unlocked ← unlock;
      if (unlocked : bool) then
        started ← run_server;
        if negb started then ret false else ret true
      else login_with_password
  end.

(** *** Vault objects *)

(** [BWCli.get(object_type, object_id, organization_id)] *)
Definition get (object_type : string) (object_id organization_id : option string)
  : M json :=
  cli ← gets self;
  if use_rest cli then
    let path := "/object/" +:+ object_type +:+ "/" +:+ format_opt object_id +:+ "/?" in
    let query := if Py.truthy_str organization_id
                 then ["organizationId=" +:+ format_opt organization_id] else [] in
    run_as_rest (path +:+ PyStr.join "&" query) JNull
  else
    let args := [Some "get"; Some object_type; object_id]
                ++ (if Py.truthy_str organization_id
                    then [Some ("--organizationid=" +:+ format_opt organization_id)]
                    else []) in
    run args true false.

(** The shell line of [BWCli.encode]. *)
Definition encode_line (cli : BWCli) (text : string) : string :=
  PyStr.join " " ["echo"; text; "|"; bw_executable cli; "encode"].

(** [BWCli.encode(data)]: the trimmed output, or [None] when the exit code
    is not zero. *)
Definition encode (data : json) : M (option string) :=
  cli ← gets self;
  let data := match data with JObj d => JStr (json_dumps d) | _ => data end in
  match data with
  | JStr text =>
      '(exit_code, out) ← call_command_runner (Shell (encode_line cli text));
      if (exit_code =? 0)%Z then ret (Some (PyStr.strip out)) else ret None
  | other =>
      raise (TypeError ("sequence item 1: expected str instance, "
                        +:+ Py.type_name other +:+ " found"))
  end.

(** The argument list of [edit] in process mode, before the payload. *)
Definition edit_args (object_type : string) (object_id organization_id : option string)
  : list (option string) :=
  [Some "edit"; Some object_type; object_id]
  ++ (if Py.truthy_str organization_id
      then [Some ("--organizationid=" +:+ format_opt organization_id)]
      else []).

(** The path of [edit] in REST mode. *)
Definition edit_path (object_type : string) (object_id organization_id : option string)
  : string :=
  let path := "/object/" +:+ object_type +:+ "/" +:+ format_opt object_id +:+ "/?" in
  let query := (if Py.truthy_str object_id
                then ["id=" +:+ format_opt object_id] else [])
               ++ (if Py.truthy_str organization_id
                   then ["organizationId=" +:+ format_opt organization_id] else []) in
  path +:+ PyStr.join "&" query.

(** [BWCli.edit(object_type, object_id, organization_id, data)] *)
Definition edit (object_type : string) (object_id organization_id : option string)
  (data : json) : M json :=
  cli ← gets self;
  if use_rest cli then
    run_as_rest (edit_path object_type object_id organization_id) data
  else
    encoded ← encode data;
    run (edit_args object_type object_id organization_id ++ [encoded]) true false.

(** [BWCli.org_collection(organization_id, collection_id, data=None)] *)
Definition org_collection (organization_id collection_id : option string)
  (data : json) : M json :=
  if Py.truthy data
  then edit "org-collection" collection_id organization_id data
  else get "org-collection" collection_id organization_id.

(** *** The inheritance dialog ([inherit_permissions] of [__main__.py]) *)

(** How one pass through the body of the [for] loop ended: by [continue],
    or by running to the end of the [try] statement. *)
Inductive flow : Type :=
| Continue
| Next.

(** [window["output"].update(text, append=True)] *)
Definition append_output (text : string) : M unit :=
  modify (fun st => set_window (mkWindow (progress_text (window st))
                                  (output (window st) +:+ text)) st).

(** [window["output"].update(value=text)] *)
Definition set_output (text : string) : M unit :=
  modify (fun st => set_window (mkWindow (progress_text (window st)) text) st).

(** [window["progress_text"].update(text)] *)
Definition set_progress (text : string) : M unit :=
  modify (fun st => set_window (mkWindow text (output (window st))) st).

(** [f"{done}/{total} collections processed"] *)
Definition progress_line (done total : nat) : string :=
  pretty done +:+ "/" +:+ pretty total +:+ " collections processed".

(** Lines 82-85: the two overrides applied to the fetched collection. *)
Definition override_permissions (collection user_permissions group_permissions : json)
  : outcome json :=
  match (if Py.truthy user_permissions
         then Py.setitem collection "users" user_permissions
         else Ret collection) with
  | Ret collection =>
      if Py.truthy group_permissions
      then Py.setitem collection "groups" group_permissions
      else Ret collection
  | Raise e => Raise e
  end.

(** Lines 87-104: submit the collection and write the outcome to the
    output field. The result pairs the way the pass ends with the new
    value of [has_failures]. *)
Definition submit_collection (organization_id collection_id : string)
  (has_failures : bool) (collection : json) : M (flow * bool) :=
  result ← org_collection (Some organization_id) (Some collection_id) collection;
  if negb (Py.truthy result) then
    name ← lift (Py.getitem collection "name");
    let msg := "Failed to update collection " +:+ format name in
    append_output (msg +:+ PyStr.LF);;
    ret (Continue, true)
  else
    name ← lift (Py.getitem collection "name");
    append_output ("Updated collection " +:+ format name
                   +:+ " with users and groups." +:+ PyStr.LF);;
    ret (Next, has_failures).

(** Lines 105-108: the [except Exception as exc] clause. *)
Definition report_error (collection_id : string) (has_failures : bool)
  (exc : exn) : M (flow * bool) :=
  let msg := "Error inheriting permissions for collection "
             +:+ collection_id +:+ ": " +:+ Py.exn_str exc in
  append_output (msg +:+ PyStr.LF);;
  ret (Next, has_failures).

(** Lines 68-108: the [try] statement of the loop body for one target. *)
Definition inherit_one (organization_id : string)
  (user_permissions group_permissions : json) (has_failures : bool)
  (collection_id : string) : M (flow * bool) :=
  try_except
    (collection ← org_collection (Some organization_id) (Some collection_id) JNull;
     if negb (Py.truthy collection) then
       let msg := "Collection " +:+ collection_id +:+ " not found" in
       append_output (msg +:+ "." +:+ PyStr.LF);;
       ret (Continue, has_failures)
     else
       _ ← lift (Py.getitem collection "name");
       collection ← lift (override_permissions collection
                            user_permissions group_permissions);
       submit_collection organization_id collection_id has_failures collection)
    (report_error collection_id has_failures).

(** [enumerate(collection_ids)] *)
Definition enumerate (l : list string) : list (nat * string) :=
  zip (seq 0 (length l)) l.

(** Lines 67-112: the [for] loop over the enumerated targets. The
    result is the final value of [index] and of [has_failures]. *)
Fixpoint inherit_loop (organization_id : string)
  (user_permissions group_permissions : json) (total : nat)
  (targets : list (nat * string)) (index : Z) (has_failures : bool)
  : M (Z * bool) :=
  match targets with
  | [] => ret (index, has_failures)
  | (i, collection_id) :: rest =>
      '(how, has_failures) ← inherit_one organization_id user_permissions
                               group_permissions has_failures collection_id;
      match how with
      | Next => set_progress (progress_line (i + 1) total)
      | Continue => ret tt
      end;;
      inherit_loop organization_id user_permissions group_permissions total
        rest (Z.of_nat i) has_failures
  end.

(** Lines 63-121: what the button "Execute action" does. The result is
    the value [index] is left with. *)
Definition execute_action (organization_id : string) (collection_ids : list string)
  (user_permissions group_permissions : json) (index : Z) : M Z :=
  set_output "";;
  '(index, has_failures) ← inherit_loop organization_id user_permissions
                             group_permissions (length collection_ids)
                             (enumerate collection_ids) index false;
  (if (index >=? Z.of_nat (length collection_ids) - 1)%Z then
     if (has_failures : bool) then
       modify (add_popup (PopupError
         "Some collections failed to update. Check the output for details."))
     else
       modify (add_popup (Popup "All collections updated successfully."))
   else ret tt);;
  ret index.

(** Lines 58-121: the event loop, over the events [window.read] delivers
    ([None] is [sg.WIN_CLOSED]). It ends at the first close or "Exit"; when
    the events run out the dialog is waiting for the next one. *)
Fixpoint event_loop (organization_id : string) (collection_ids : list string)
  (user_permissions group_permissions : json)
  (events : list (option string)) (index : Z) : M unit :=
  match events with
  | [] => ret tt
  | None :: _ => ret tt
  | Some ev :: rest =>
      if String.eqb ev "Exit" then ret tt
      else if String.eqb ev "Execute action" then
        index ← execute_action organization_id collection_ids
                  user_permissions group_permissions index;
        event_loop organization_id collection_ids user_permissions
          group_permissions rest index
      else
        event_loop organization_id collection_ids user_permissions
          group_permissions rest index
  end.

(** [inherit_permissions(cli, organization_id, collection_ids,
    user_permissions, group_permissions)] *)
Definition inherit_permissions (organization_id : string)
  (collection_ids : list string) (user_permissions group_permissions : json)
  (events : list (option string)) : M unit :=
  modify (set_window (mkWindow (progress_line 0 (length collection_ids)) ""));;
  event_loop organization_id collection_ids user_permissions
    group_permissions events 0.

(** *** The other methods of [BWCli] *)

(** The argument list of the login with an API key. *)
Definition login_as_api_args (client_id client_secret : option string)
  : list (option string) :=
  [Some "login"; Some "--apikey"; Some "--raw"]
  ++ (if Py.truthy_str client_id then [client_id] else [])
  ++ (if Py.truthy_str client_secret then [client_secret] else []).

(** [BWCli.login_as_api(client_id, client_secret)] *)
Definition login_as_api (client_id client_secret : option string) : M bool :=
  s ← status;
  match s with
  | Some true => ret true
  | _ =>
      result ← run (login_as_api_args client_id client_secret) true true;
      if Py.truthy result then
        tok ← lift (py_strip result);
        modify (set_session (Some tok));;
        ret true
      else ret false
  end.

(** The path of [list] in REST mode. *)
Definition list_path (objects : string)
  (search organization_id folder_id : option string) : string :=
  let path := "/list/object/" +:+ objects +:+ "/?" in
  let query := (if Py.truthy_str organization_id
                then ["organizationId=" +:+ format_opt organization_id] else [])
               ++ (if Py.truthy_str search
                   then ["/?search=" +:+ format_opt search] else [])
               ++ (if Py.truthy_str folder_id
                   then ["folderId=" +:+ format_opt folder_id] else []) in
  match query with
  | [] => path
  | _ => path +:+ PyStr.join "&" query
  end.

(** The argument list of [list] in process mode. *)
Definition list_args (objects : string)
  (search organization_id folder_id : option string) : list (option string) :=
  [Some "list"; Some objects]
  ++ (if Py.truthy_str search
      then [Some ("--search=" +:+ format_opt search)] else [])
  ++ (if Py.truthy_str organization_id
      then [Some ("--organizationid=" +:+ format_opt organization_id)] else [])
  ++ (if Py.truthy_str folder_id
      then [Some ("--folderid=" +:+ format_opt folder_id)] else []).

(** [BWCli.list(objects, search, organization_id, folder_id)] *)
Definition list_ (objects : string)
  (search organization_id folder_id : option string) : M json :=
  cli ← gets self;
  if use_rest cli
  then run_as_rest (list_path objects search organization_id folder_id) JNull
  else run (list_args objects search organization_id folder_id) true false.

(** [BWCli.organizations(name=None)] *)
Definition organizations (name : option string) : M json :=
  list_ "organizations" name None None.

(** [BWCli.collections(name=None)] *)
Definition collections (name : option string) : M json :=
  list_ "collections" name None None.

(** [BWCli.collection(id_collection)] *)
Definition collection (id_collection : option string) : M json :=
  run [Some "get"; Some "collection"; Some (format_opt id_collection)] true false.

(** [BWCli.items(name=None)] *)
Definition items (name : option string) : M json :=
  list_ "items" name None None.

(** [BWCli.org_collections(organization_id, name=None)] *)
Definition org_collections (organization_id name : option string) : M json :=
  list_ "org-collections" name organization_id None.

(** [BWCli.org_members(organization_id, name=None)] *)
Definition org_members (organization_id name : option string) : M json :=
  list_ "org-members" name organization_id None.

(** [BWCli.folders(name=None)] *)
Definition folders (name : option string) : M json :=
  list_ "folders" name None None.

(** *** Quantities the statements below refer to *)

(** The environment the child process of [run] inherits. *)
Definition child_env (with_session : bool) (st : State W) : gmap string string :=
  match _session (self st) with
  | Some tok =>
      if with_session && PyStr.nonempty tok
      then <["BW_SESSION" := tok]> (environ st)
      else environ st
  | None => environ st
  end.

(** The environment [run] leaves behind. *)
Definition env_after_run (with_session : bool) (st : State W)
  : gmap string string :=
  if Py.truthy_str (_session (self st))
  then delete "BW_SESSION" (child_env with_session st)
  else child_env with_session st.

(** What [run] returns for an exit code and an output. *)
Definition run_result (raw : bool) (exit_code : Z) (out : string) : json :=
  if (exit_code =? 0)%Z then
    if raw then JStr out else default JNull (json_loads out)
  else JNull.

(** The action [run_as_rest] selects for a payload. *)
Definition rest_action (data : json) : string :=
  if Py.truthy data then "update" else "read".

(** The world the request of [run_as_rest] is made in: a session is
    created first when the requestor has none. *)
Definition rest_world (st : State W) : W :=
  if api_session (world st) then world st
  else create_session "/status" (world st).

(** The calls [run_as_rest] makes. *)
Definition rest_events (path : string) (data : json) (st : State W) : list event :=
  (if api_session (world st) then [] else [RestSession "/status"])
  ++ [RestCall path (rest_action data) data].

(** The state [run_as_rest] leaves behind when the sidecar moves the world
    to [w]. *)
Definition after_rest (path : string) (data : json) (w : W) (st : State W)
  : State W :=
  mkState (self st) (environ st) w (trace st ++ rest_events path data st)
    (window st) (popups st).

(** Lines 199-209 of [status]: the tri-state read off the decoded
    output. *)
Definition status_of (v : json) : outcome (option bool) :=
  if Py.truthy v then
    match Py.getitem v "status" with
    | Raise e => Raise e
    | Ret s =>
        if Py.eq_str s "locked" then Ret (Some false)
        else if Py.eq_str s "unlocked" then Ret (Some true)
        else Ret None
    end
  else Ret None.

(** The text [encode] pipes into the executable: a [dict] is serialized, a
    [str] is taken as it is; anything else makes [join] raise. *)
Definition encode_text (data : json) : option string :=
  match data with
  | JObj d => Some (json_dumps d)
  | JStr text => Some text
  | _ => None
  end.



(** The command [run] hands to [command_runner]. *)
Definition run_command (args : list (option string)) (st : State W) : command :=
  Argv (Some (bw_executable (self st)) :: args).

(** The state [run] leaves behind when the executable moves the world to
    [w]. *)
Definition after_run (args : list (option string)) (with_session : bool)
  (w : W) (st : State W) : State W :=
  mkState (self st) (env_after_run with_session st) w
    (trace st ++ [Exec (run_command args st) (child_env with_session st)])
    (window st) (popups st).

End Client.

(** ** A simulated outside world

    A small vault for running the client on concrete inputs: the
    executable answers from a script, and the sidecar serves the
    collections of one organization from a store. *)

Module Sim.

Record world : Type := mkWorld {
  script : list (Z * string);
  rest_session : bool;
  store : list (string * json)
}.

(** The executable gives its scripted answers in turn, whatever it is
    asked; with the script used up it fails with exit code 1. *)
Definition sim_command_runner (cmd : command) (env : gmap string string)
  (w : world) : Z * string * world :=
  match script w with
  | [] => (1%Z, "", w)
  | (exit_code, out) :: rest =>
      (exit_code, out, mkWorld rest (rest_session w) (store w))
  end.

Definition organization : string := "org-1".

Definition envelope (obj : json) : json :=
  JObj [("success", JBool true); ("data", obj)].

Definition read_path (id : string) : string :=
  "/object/org-collection/" +:+ id +:+ "/?organizationId=" +:+ organization.

Definition store_put (id : string) (obj : json) (s : list (string * json))
  : list (string * json) :=
  map (fun kv => if String.eqb kv.1 id then (id, obj) else kv) s.

(** The sidecar: a read returns the stored collection in a success
    envelope, an update stores the body it is sent; an unknown path gives
    no result. *)
Definition sim_requestor (endpoint action : string) (data : json) (w : world)
  : json * world :=
  if String.eqb action "update" then
    match find (fun kv => String.eqb
                  (edit_path "org-collection" (Some kv.1) (Some organization))
                  endpoint) (store w) with
    | Some (id, _) =>
        (envelope data,
         mkWorld (script w) (rest_session w) (store_put id data (store w)))
    | None => (JNull, w)
    end
  else
    match find (fun kv => String.eqb (read_path kv.1) endpoint) (store w) with
    | Some (_, obj) => (envelope obj, w)
    | None => (JNull, w)
    end.

Definition vault : Vault world := {|
  command_runner := sim_command_runner;
  popen := fun _ _ w => (4242%Z, w);
  api_session := rest_session;
  create_session := fun _ w => mkWorld (script w) true (store w);
  requestor := sim_requestor
|}.

Definition quote : string := String (ascii_of_nat 34) EmptyString.

(** A compact serializer, for strings that need no escaping. *)
Fixpoint dumps (v : json) : string :=
  match v with
  | JNull => "null"
  | JBool true => "true"
  | JBool false => "false"
  | JInt z => pretty z
  | JStr s => quote +:+ s +:+ quote
  | JArr l =>
      "[" +:+ PyStr.join "," (map dumps l) +:+ "]"
  | JObj d =>
      "{" +:+ PyStr.join ","
                (map (fun kv => quote +:+ kv.1 +:+ quote +:+ ":" +:+ dumps kv.2) d)
          +:+ "}"
  end.

(** The documents the simulated decoder knows. *)
Definition documents : list json :=
  [JObj [("status", JStr "locked")];
   JObj [("status", JStr "unlocked")];
   JObj [("status", JStr "unauthenticated")];
   JObj [("object", JStr "org-collection"); ("id", JStr "c1");
         ("name", JStr "Parent")]].

(** Decoding is the inverse of [dumps] on [documents]; anything else does
    not decode. *)
Definition loads (s : string) : option json :=
  find (fun v => String.eqb (dumps v) s) documents.

Definition pylib : PyLib := {|
  json_loads := loads;
  json_dumps := fun d => dumps (JObj d);
  repr := dumps
|}.

Definition client (session : option string) (rest : bool) : BWCli :=
  mkBWCli "bw" session "user@example.org" "secret" rest "localhost" 8087 false.

Definition state (session : option string) (rest : bool)
  (env : gmap string string) (w : world) : State world :=
  mkState (client session rest) env w [] (mkWindow "" "") [].

End Sim.

(** ** Concrete runs

    States of the simulated world on which the statements below are
    evaluated. *)

Module Scenario.

(** The caller's environment already holds a [BW_SESSION]. *)
Definition caller_env : gmap string string := {["BW_SESSION" := "stale"]}.

(** The executable answers once, with success. *)
Definition one_answer : Sim.world :=
  Sim.mkWorld [(0%Z, "You have logged out.")] false [].


(** A process-mode client holding a token. *)
Definition with_token : State Sim.world :=
  Sim.state (Some "tok") false caller_env one_answer.

(** The executable fails. *)
Definition failing : State Sim.world :=
  Sim.state (Some "tok") false ∅ (Sim.mkWorld [(1%Z, "Not logged in.")] false []).




(** The decoded-status documents as the executable prints them. *)
Definition status_output (state : string) : string :=
  Sim.dumps (JObj [("status", JStr state)]).


Definition server_url : string := "https://vault.example.org".

(** A locked vault whose logout is refused; the server setting is then
    accepted. *)
Definition locked_logout_refused : State Sim.world :=
  Sim.state (Some "tok") false ∅
    (Sim.mkWorld [(0%Z, status_output "locked");
                  (1%Z, "You are not logged in.");
                  (0%Z, "Saved setting `config`.")] false []).

(** An unlocked vault whose logout succeeds. *)
Definition unlocked_logout_accepted : State Sim.world :=
  Sim.state (Some "tok") false ∅
    (Sim.mkWorld [(0%Z, status_output "unlocked");
                  (0%Z, "You have logged out.");
                  (0%Z, "Saved setting `config`.")] false []).

(** An unlocked vault. *)
Definition unlocked : State Sim.world :=
  Sim.state (Some "tok") false ∅
    (Sim.mkWorld [(0%Z, status_output "unlocked")] false []).

(** A locked vault that unlocks. *)
Definition locked_unlocks : State Sim.world :=
  Sim.state None false ∅
    (Sim.mkWorld [(0%Z, status_output "locked");
                  (0%Z, "unlock-token" +:+ PyStr.LF)] false []).

(** A locked vault that refuses the password and then accepts a login. *)
Definition locked_stays_locked : State Sim.world :=
  Sim.state None false ∅
    (Sim.mkWorld [(0%Z, status_output "locked");
                  (1%Z, "Invalid master password.");
                  (0%Z, " login-token " +:+ PyStr.LF)] false []).

(** An unauthenticated vault that accepts a login. *)
Definition unauthenticated : State Sim.world :=
  Sim.state (Some "old") false ∅
    (Sim.mkWorld [(0%Z, status_output "unauthenticated");
                  (0%Z, " login-token " +:+ PyStr.LF)] false []).

(** The parent collection, as the vault returns it. *)
Definition parent : json :=
  JObj [("object", JStr "org-collection"); ("id", JStr "c1");
        ("name", JStr "Parent")].

(** Process mode: the encode step succeeds, then the edit does. *)
Definition encode_accepted : State Sim.world :=
  Sim.state (Some "tok") false ∅
    (Sim.mkWorld [(0%Z, "eyJvYmplY3QiOiJvcmctY29sbGVjdGlvbiJ9" +:+ PyStr.LF);
                  (0%Z, Sim.dumps parent)] false []).


(** REST mode: the sidecar holds the parent collection. *)
Definition rest_parent : State Sim.world :=
  Sim.state (Some "tok") true ∅ (Sim.mkWorld [] false [("c1", parent)]).

(** The entries of the child collection, with permissions of its own. *)
Definition child_fields : dict :=
  [("object", JStr "org-collection"); ("id", JStr "c2");
   ("name", JStr "Parent/Child");
   ("users", JArr [JObj [("id", JStr "u9"); ("readOnly", JBool false)]]);
   ("groups", JArr [JObj [("id", JStr "g1"); ("readOnly", JBool true)]])].

(** The child collection, as the vault returns it. *)
Definition child : json := JObj child_fields.

(** [[{"id": "u1", "readOnly": true}]] *)
Definition supplied_users : json :=
  JArr [JObj [("id", JStr "u1"); ("readOnly", JBool true)]].

(** The organization [org-1] with [Parent] (c1) and [Parent/Child] (c2)
    behind the sidecar. *)
Definition parent_and_child : State Sim.world :=
  Sim.state (Some "tok") true ∅
    (Sim.mkWorld [] false [("c1", parent); ("c2", child)]).

(** A collection without permissions. *)
Definition sibling (id name : string) : json :=
  JObj [("object", JStr "org-collection"); ("id", JStr id);
        ("name", JStr name); ("users", JArr []); ("groups", JArr [])].

(** Three targets are listed; the sidecar knows the first and the third. *)
Definition middle_missing : State Sim.world :=
  Sim.state (Some "tok") true ∅
    (Sim.mkWorld [] false [("k1", sibling "k1" "Parent/A");
                           ("k3", sibling "k3" "Parent/C")]).

(** The same three targets, all known. *)
Definition all_present : State Sim.world :=
  Sim.state (Some "tok") true ∅
    (Sim.mkWorld [] false [("k1", sibling "k1" "Parent/A");
                           ("k2", sibling "k2" "Parent/B");
                           ("k3", sibling "k3" "Parent/C")]).

(** The endpoints read through the sidecar, oldest first. *)
Definition read_endpoints (t : list event) : list string :=
  omap (fun e => match e with
                 | RestCall endpoint action _ =>
                     if String.eqb action "read" then Some endpoint else None
                 | _ => None
                 end) t.

(** The operator presses "Execute action" once and then "Exit". *)
Definition one_run : list (option string) :=
  [Some "__TIMEOUT__"; Some "Execute action"; Some "__TIMEOUT__"; Some "Exit"].

End Scenario.

(** ** Further quantities and concrete runs *)

(** [s.isspace()]: the string is not empty and every character is
    whitespace. *)
Fixpoint isspace_str (s : string) : bool :=
  match s with
  | EmptyString => false
  | String c EmptyString => PyStr.isspace c
  | String c r => PyStr.isspace c && isspace_str r
  end.

Module More.

(** The executable prints only a newline on a successful unlock. *)
Definition blank_unlock : State Sim.world :=
  Sim.state (Some "old") false ∅
    (Sim.mkWorld [(0%Z, " " +:+ PyStr.LF)] false []).

(** The unlock is accepted and prints a token. *)
Definition unlock_accepted : State Sim.world :=
  Sim.state None false ∅
    (Sim.mkWorld [(0%Z, "unlock-token" +:+ PyStr.LF)] false []).


(** A locked vault that accepts an API key login. *)
Definition locked_api_login : State Sim.world :=
  Sim.state (Some "old") false ∅
    (Sim.mkWorld [(0%Z, Scenario.status_output "locked");
                  (0%Z, " api-token " +:+ PyStr.LF)] false []).

(** The status command answers with a state the client does not know. *)
Definition odd_status : State Sim.world :=
  Sim.state (Some "tok") false ∅
    (Sim.mkWorld [(0%Z, Sim.dumps (JObj [("status", JStr "unauthenticated")]))]
       false []).

(** An unauthenticated vault that refuses the login. *)
Definition unauthenticated_refused : State Sim.world :=
  Sim.state (Some "old") false ∅
    (Sim.mkWorld [(0%Z, Scenario.status_output "unauthenticated");
                  (1%Z, "Username or password is incorrect.")] false []).

End More.

(** The path of [get] in REST mode. *)
Definition get_path (object_type : string) (object_id organization_id : option string)
  : string :=
  ("/object/" +:+ object_type +:+ "/" +:+ format_opt object_id +:+ "/?")
  +:+ PyStr.join "&" (if Py.truthy_str organization_id
                      then ["organizationId=" +:+ format_opt organization_id]
                      else []).

(** How often "Execute action" is pressed before the dialog is closed or
    left with "Exit". *)
Fixpoint presses (events : list (option string)) : nat :=
  match events with
  | [] => 0
  | None :: _ => 0
  | Some ev :: rest =>
      if String.eqb ev "Exit" then 0
      else if String.eqb ev "Execute action" then S (presses rest)
      else presses rest
  end.

Section Frames.

Context {W : Type} {V : Vault W} {L : PyLib}.

(** The computation [m] leaves the component [f] of the state as it
    is, whether it returns or raises. *)
Definition keeps {A B : Type} (f : State W -> B) (m : M A) : Prop :=
  forall st, f (m st).2 = f st.

(** The initial contents of the dialog for a list of targets. *)
Definition initial_window (collection_ids : list string) : Window :=
  mkWindow (progress_line 0 (length collection_ids)) "".

End Frames.

(** ** Key obfuscation ([obfuscation.py])

    A [bytes] value is a list of integers, each in [0, 256). *)

Module Obfuscation.

(** [b"/*bitwarden_cli_toolkit 2025*/"] *)
Definition keyword : list Z :=
  map (fun c => Z.of_nat (nat_of_ascii c))
    (list_ascii_of_string "/*bitwarden_cli_toolkit 2025*/").

(** [keyword[i % key_length]] *)
Definition keyword_at (i : nat) : Z :=
  nth (i mod length keyword) keyword 0%Z.

(** [(c ^ keyword[i % key_length] for i, c in enumerate(key))], with
    [enumerate] counting from [i]. *)
Fixpoint xor_from (i : nat) (key : list Z) : list Z :=
  match key with
  | [] => []
  | c :: rest => Z.lxor c (keyword_at i) :: xor_from (S i) rest
  end.

(** [obfuscation(key)] *)
Definition obfuscation (key : list Z) : list Z :=
  match key with
  | [] => key
  | _ => xor_from 0 key
  end.

(** The value is a byte. *)
Definition is_byte (c : Z) : Prop := (0 <= c < 256)%Z.

End Obfuscation.

(** ** Dotted paths into the configuration ([configuration.py])

    The configuration is a tree of [dict]s; [s] and [d] change the [dict]
    they reach in place, which the root sees: here they return the root
    after the change. No [dict] is reachable by two paths. *)

Module Configuration.

(** What [s] and [d] can raise: the exceptions of subscripting, and those
    of [str.split] and of [keys[-1]]. *)
Inductive error : Type :=
| ValueError (msg : string)
| IndexError (msg : string)
| Lookup (e : exn).

Inductive result (A : Type) : Type :=
| Done (a : A)
| Failed (e : error).
Arguments Done {A} a.
Arguments Failed {A} e.

(** The scan of [str.split(sep)]: [cur] is the piece being read, [skip]
    the number of characters of a separator just found that are still to
    be passed over. *)
Fixpoint split_from (sep : string) (skip : nat) (cur path : string)
  : list string :=
  match path with
  | EmptyString => [cur]
  | String c rest =>
      match skip with
      | S n => split_from sep n cur rest
      | O =>
          if String.prefix sep path
          then cur :: split_from sep (String.length sep - 1) "" rest
          else split_from sep 0 (cur +:+ String c "") rest
      end
  end.

(** [path.split(sep)]; [None] is [ValueError("empty separator")]. *)
Definition split (sep path : string) : option (list string) :=
  match sep with
  | EmptyString => None
  | _ => Some (split_from sep 0 "" path)
  end.

(** [del d[k]] on the association list: every binding of [k] goes. *)
Fixpoint dict_del (fields : dict) (k : string) : dict :=
  match fields with
  | [] => []
  | (k', v) :: rest =>
      if String.eqb k' k then dict_del rest k else (k', v) :: dict_del rest k
  end.

(** [data.pop(k)], for the object left after the call. *)
Definition pop (data : json) (k : string) : outcome json :=
  match data with
  | JObj fields =>
      match Py.dict_get fields k with
      | Some _ => Ret (JObj (dict_del fields k))
      | None => Raise (KeyError k)
      end
  | JArr _ => Raise (TypeError "'str' object cannot be interpreted as an integer")
  | other => Raise (AttributeError ("'" +:+ Py.type_name other
                                    +:+ "' object has no attribute 'pop'"))
  end.

(** [for key in keys: data = data[key]] followed by a change [f] of the
    object reached; the result is the root after the change. *)
Fixpoint update_at (f : json -> outcome json) (keys : list string) (data : json)
  : outcome json :=
  match keys with
  | [] => f data
  | key :: rest =>
      match Py.getitem data key with
      | Raise e => Raise e
      | Ret inner =>
          match update_at f rest inner with
          | Raise e => Raise e
          | Ret inner' => Py.setitem data key inner'
          end
      end
  end.

(** [s(self, path, value, sep=".")] *)
Definition s (self : json) (path : string) (value : json) (sep : string)
  : result json :=
  match split sep path with
  | None => Failed (ValueError "empty separator")
  | Some keys =>
      match last keys with
      | None => Failed (IndexError "list index out of range")
      | Some lastkey =>
          match update_at (fun data => Py.setitem data lastkey value)
                  (removelast keys) self with
          | Ret self' => Done self'
          | Raise e => Failed (Lookup e)
          end
      end
  end.

(** [d(self, path, sep=".")] *)
Definition d (self : json) (path : string) (sep : string) : result json :=
  match split sep path with
  | None => Failed (ValueError "empty separator")
  | Some keys =>
      match last keys with
      | None => Failed (IndexError "list index out of range")
      | Some lastkey =>
          match update_at (fun data => pop data lastkey)
                  (removelast keys) self with
          | Ret self' => Done self'
          | Raise (KeyError _) => Done self
          | Raise e => Failed (Lookup e)
          end
      end
  end.

(** [data[k1][k2]...[kn]] *)
Fixpoint lookup_path (data : json) (keys : list string) : outcome json :=
  match keys with
  | [] => Ret data
  | key :: rest =>
      match Py.getitem data key with
      | Raise e => Raise e
      | Ret inner => lookup_path inner rest
      end
  end.

(** [needle in haystack] for two [str]. *)
Fixpoint contains (haystack needle : string) : bool :=
  String.prefix needle haystack
  || match haystack with
     | EmptyString => false
     | String _ rest => contains rest needle
     end.

(** [key_should_be_encrypted(key, encrypted_options)] *)
Definition key_should_be_encrypted (key : option string)
  (encrypted_options : list string) : bool :=
  match key with
  | Some key =>
      if PyStr.nonempty key
      then existsb (fun option => contains key option) encrypted_options
      else false
  | None => false
  end.

(** The default configuration of [empty_config_dict], on a host that is
    not Windows, for the version [conf_version]. *)
Definition empty_config_dict (conf_version : string) : json :=
  JObj [("conf_version", JStr conf_version);
        ("admin_api",
         JObj [("url", JStr "https://vault.bitwarden.com");
               ("credentials",
                JObj [("username", JNull); ("password", JNull);
                      ("client_id", JNull); ("client_secret", JNull);
                      ("api_key", JNull); ("api_key_id", JNull)]);
               ("bw_executable", JStr "bw");
               ("use_rest", JBool true)])].

End Configuration.


(** ** Proof steps

    [open_binds] exposes the first statement of a method, so that the
    equation of the call it makes ([run_eq] and the like) can be used. *)

Ltac open_binds :=
  unfold mbind, M_bind, bind, gets; cbv beta iota zeta.

(** ** Facts about the transport *)

Section TransportFacts.

Context {W : Type} {V : Vault W} {L : PyLib}.

Lemma run_eq args ws raw (st : State W) :
  run args ws raw st =
    let r := command_runner (run_command args st) (child_env ws st) (world st) in
    (Ret (run_result raw r.1.1 r.1.2), after_run args ws r.2 st).
Proof.
  unfold run, after_run, run_command, env_after_run, child_env, run_result.
  unfold mbind, M_bind, bind, gets, modify, ret, call_command_runner.
  destruct st as [c e w t wi p]. cbn [self environ world trace window popups].
  destruct (_session c) as [tok|]; cbn;
    [destruct ws, (PyStr.nonempty tok); cbn|];
    (destruct (command_runner _ _ w) as [[code out] w']; cbn;
     destruct (code =? 0)%Z, raw; try destruct (json_loads out);
     reflexivity).
Qed.

Lemma run_returns args ws raw (st : State W) :
  exists v, (run args ws raw st).1 = Ret v.
Proof. rewrite run_eq. cbn. eauto. Qed.


Lemma run_self args ws raw (st : State W) :
  self (run args ws raw st).2 = self st.
Proof. rewrite run_eq. reflexivity. Qed.

Lemma nonempty_true (s : string) : s <> "" -> PyStr.nonempty s = true.
Proof. destruct s; [congruence | reflexivity]. Qed.

Lemma nonempty_false (s : string) : PyStr.nonempty s = false -> s = "".
Proof. destruct s; [reflexivity | discriminate]. Qed.

Lemma run_as_rest_eq path data (st : State W) :
  use_rest (self st) = true ->
  run_as_rest path data st =
    let r := requestor path (rest_action data) data (rest_world st) in
    (unwrap_response r.1, after_rest path data r.2 st).
Proof.
  intros Hrest.
  unfold run_as_rest, after_rest, rest_events, rest_world, rest_action.
  unfold mbind, M_bind, bind, gets, modify, ret, raise, lift, call_requestor.
  destruct st as [c e w t wi p]. cbn [self environ world trace window popups] in *.
  rewrite Hrest. cbn.
  destruct (api_session w); cbn;
    destruct (requestor _ _ _ _) as [result w']; cbn;
    unfold set_world, record; cbn [self environ world trace window popups];
    rewrite <- ?app_assoc; reflexivity.
Qed.




(** A truthy result without a [success] entry is not an envelope: the
    subscript raises [KeyError]. *)
Lemma run_as_rest_no_success_entry path data (st : State W) other w :
  use_rest (self st) = true ->
  requestor path (rest_action data) data (rest_world st) = (JObj other, w) ->
  other <> [] ->
  Py.dict_get other "success" = None ->
  (run_as_rest path data st).1 = Raise (KeyError "success").
Proof.
  intros Hrest Hr Hne Hs. rewrite run_as_rest_eq by assumption. cbn.
  rewrite Hr. cbn. unfold unwrap_response, Py.getitem. rewrite Hs.
  destruct other; [contradiction | reflexivity].
Qed.

End TransportFacts.

(** ** The transport on concrete runs *)

Section TransportRuns.

#[local] Existing Instances Sim.vault Sim.pylib.






End TransportRuns.

(** ** Facts about the session *)

Section SessionFacts.

Context {W : Type} {V : Vault W} {L : PyLib}.

Lemma truthy_raw_result exit_code out :
  Py.truthy (run_result true exit_code out)
  = (exit_code =? 0)%Z && PyStr.nonempty out.
Proof. unfold run_result. destruct (exit_code =? 0)%Z; reflexivity. Qed.

Lemma strip_raw_result exit_code out :
  Py.truthy (run_result true exit_code out) = true ->
  py_strip (run_result true exit_code out) = Ret (PyStr.strip out).
Proof. unfold run_result. destruct (exit_code =? 0)%Z; [reflexivity | discriminate]. Qed.

Lemma logout_eq (st : State W) :
  logout st =
    let r := command_runner (run_command [Some "logout"] st)
               (child_env true st) (world st) in
    let st1 := after_run [Some "logout"] true r.2 st in
    if (r.1.1 =? 0)%Z && PyStr.nonempty r.1.2
    then (Ret true, set_session None st1)
    else (Ret false, st1).
Proof.
  unfold logout. open_binds. rewrite run_eq. cbv beta iota zeta.
  rewrite truthy_raw_result.
  destruct (_ && _); reflexivity.
Qed.

Lemma unlock_eq (st : State W) :
  unlock st =
    let args := [Some "unlock"; Some "--raw"; Some (_password (self st))] in
    let r := command_runner (run_command args st) (child_env true st) (world st) in
    let st1 := after_run args true r.2 st in
    if (r.1.1 =? 0)%Z && PyStr.nonempty r.1.2
    then (Ret true, set_session (Some (PyStr.strip r.1.2)) st1)
    else (Ret false, st1).
Proof.
  unfold unlock. open_binds. rewrite run_eq. cbv beta iota zeta.
  destruct (Py.truthy _) eqn:Ht.
  - unfold lift. rewrite (strip_raw_result _ _ Ht).
    rewrite truthy_raw_result in Ht. rewrite Ht. reflexivity.
  - rewrite truthy_raw_result in Ht. rewrite Ht. reflexivity.
Qed.

Lemma status_eq (st : State W) :
  status st =
    let r := command_runner (run_command [Some "status"] st)
               (child_env true st) (world st) in
    (status_of (run_result false r.1.1 r.1.2),
     after_run [Some "status"] true r.2 st).
Proof.
  unfold status. open_binds. rewrite run_eq. cbv beta iota zeta.
  unfold status_of, lift, ret.
  destruct (Py.truthy _); [|reflexivity].
  destruct (Py.getitem _ _) as [s|e]; [|reflexivity].
  destruct (Py.eq_str s "locked"); [reflexivity|].
  destruct (Py.eq_str s "unlocked"); [reflexivity|].
  destruct (Py.eq_str s "unauthenticated"); reflexivity.
Qed.


(** C4, as amended: when [config] is called with a non-empty server URL
    while [status] reports locked or unlocked, the logout command is run
    before the command that sets the server, and that command runs in the
    state [logout] left: with the session token [None] when the logout
    succeeded, and with the token unchanged when it did not. *)
Theorem config_logs_out_before_setting_server (st s1 : State W) url unlocked :
  url <> "" ->
  status st = (Ret (Some unlocked), s1) ->
  exists ok s2,
    logout s1 = (Ret ok, s2)
    /\ trace s2 = trace s1 ++ [Exec (run_command [Some "logout"] s1)
                                 (child_env true s1)]
    /\ config (Some url) st
       = run [Some "config"; Some "server"; Some url] true true s2
    /\ trace (config (Some url) st).2
       = trace s2 ++ [Exec (run_command [Some "config"; Some "server"; Some url] s2)
                        (child_env true s2)]
    /\ (ok = true -> _session (self s2) = None)
    /\ (ok = false -> _session (self s2) = _session (self s1)).
Proof.
  intros Hurl Hst.
  unfold config. open_binds. rewrite Hst. cbv beta iota zeta.
  rewrite logout_eq. cbv zeta.
  cbn [Py.truthy_str]. rewrite (nonempty_true _ Hurl).
  destruct (_ && _); cbv beta iota zeta; eexists _, _;
    (split; [reflexivity|]); (split; [reflexivity|]); (split; [reflexivity|]);
    (split; [unfold ret at 1; cbv beta iota zeta; rewrite run_eq; reflexivity|]);
    split; intros; try discriminate; reflexivity.
Qed.

Lemma status_trace (st s1 : State W) r :
  status st = (r, s1) ->
  trace s1 = trace st ++ [Exec (run_command [Some "status"] st) (child_env true st)].
Proof. rewrite status_eq. cbv zeta. intros [= _ <-]. reflexivity. Qed.

Lemma unlock_trace (st s1 : State W) r :
  unlock st = (r, s1) ->
  trace s1 = trace st
             ++ [Exec (run_command [Some "unlock"; Some "--raw";
                                    Some (_password (self st))] st)
                   (child_env true st)].
Proof.
  rewrite unlock_eq. cbv zeta.
  destruct (_ && _); intros [= _ <-]; reflexivity.
Qed.

Lemma login_with_password_eq (st : State W) :
  login_with_password st =
    let args := login_args (self st) in
    let r := command_runner (run_command args st) (child_env true st) (world st) in
    let st1 := after_run args true r.2 st in
    if (r.1.1 =? 0)%Z && PyStr.nonempty r.1.2
    then (Ret true, record ServerThread (set_session (Some (PyStr.strip r.1.2)) st1))
    else (Ret false, st1).
Proof.
  unfold login_with_password, mbind, M_bind, bind, gets. rewrite run_eq.
  cbv beta iota zeta.
  destruct (Py.truthy _) eqn:Ht.
  - unfold lift. rewrite (strip_raw_result _ _ Ht).
    rewrite truthy_raw_result in Ht. rewrite Ht. reflexivity.
  - rewrite truthy_raw_result in Ht. rewrite Ht. reflexivity.
Qed.

(** C7: [login_as_user] (1) with status unlocked returns [True] having run
    the status command only; (2) with status locked calls [unlock] and,
    when that returns [True], returns [True] having run the status and the
    unlock command only; (3) otherwise, that is with status [None], or
    locked and [unlock] returning [False], goes on to the login with
    username and password; (4) when that login command exits with code 0
    and prints a token, the stored session token is the output stripped of
    surrounding whitespace, and [True] is returned; (5) the login command
    is [login --raw] followed by the username and the password. *)
Theorem login_as_user_paths :
  (forall (st s1 : State W),
      status st = (Ret (Some true), s1) ->
      login_as_user st = (Ret true, record ServerThread s1)
      /\ trace (login_as_user st).2
         = trace st ++ [Exec (run_command [Some "status"] st) (child_env true st);
                        ServerThread])
  /\ (forall (st s1 s2 : State W),
      status st = (Ret (Some false), s1) ->
      unlock s1 = (Ret true, s2) ->
      login_as_user st = (Ret true, record ServerThread s2)
      /\ trace (login_as_user st).2
         = trace st ++ [Exec (run_command [Some "status"] st) (child_env true st);
                        Exec (run_command [Some "unlock"; Some "--raw";
                                           Some (_password (self s1))] s1)
                          (child_env true s1);
                        ServerThread])
  /\ (forall (st s1 : State W),
      status st = (Ret None, s1) ->
      login_as_user st = login_with_password (set_session None s1))
  /\ (forall (st s1 s2 : State W),
      status st = (Ret (Some false), s1) ->
      unlock s1 = (Ret false, s2) ->
      login_as_user st = login_with_password s2)
  /\ (forall (st : State W) out w,
      command_runner (run_command (login_args (self st)) st)
        (child_env true st) (world st) = (0%Z, out, w) ->
      out <> "" ->
      (login_with_password st).1 = Ret true
      /\ _session (self (login_with_password st).2) = Some (PyStr.strip out)
      /\ trace (login_with_password st).2
         = trace st ++ [Exec (run_command (login_args (self st)) st)
                          (child_env true st);
                        ServerThread])
  /\ (forall cli : BWCli,
      _username cli <> "" ->
      _password cli <> "" ->
      login_args cli
      = [Some "login"; Some "--raw"; Some (_username cli); Some (_password cli)]).
Proof.
  split; [|split; [|split; [|split; [|split]]]].
  - intros st s1 Hst.
    assert (login_as_user st = (Ret true, record ServerThread s1)) as Heq.
    { unfold login_as_user. open_binds. rewrite Hst. reflexivity. }
    split; [exact Heq|]. rewrite Heq. cbn.
    rewrite (status_trace _ _ _ Hst), <- app_assoc. reflexivity.
  - intros st s1 s2 Hst Hun.
    assert (login_as_user st = (Ret true, record ServerThread s2)) as Heq.
    { unfold login_as_user, mbind, M_bind, bind. rewrite Hst.
      cbv beta iota zeta. rewrite Hun. reflexivity. }
    split; [exact Heq|]. rewrite Heq. cbn.
    rewrite (unlock_trace _ _ _ Hun), (status_trace _ _ _ Hst), <- !app_assoc.
    reflexivity.
  - intros st s1 Hst.
    unfold login_as_user. open_binds. rewrite Hst. reflexivity.
  - intros st s1 s2 Hst Hun.
    unfold login_as_user, mbind, M_bind, bind. rewrite Hst.
    cbv beta iota zeta. rewrite Hun. reflexivity.
  - intros st out w Hc Hout. rewrite login_with_password_eq. cbv zeta.
    rewrite Hc. cbn [fst snd]. rewrite (nonempty_true _ Hout). cbn.
    rewrite <- app_assoc. repeat split.
  - intros cli Hu Hp. unfold login_args.
    rewrite (nonempty_true _ Hu), (nonempty_true _ Hp). reflexivity.
Qed.

End SessionFacts.

Section SessionRuns.

#[local] Existing Instances Sim.vault Sim.pylib.



(** C4, as stated, fails when the logout is refused: the server is set
    from a state in which the session token is still there, and the
    command that sets it is even given the token. *)
Lemma config_sets_server_with_token_after_refused_logout :
  (status Scenario.locked_logout_refused).1 = Ret (Some false)
  /\ (logout (status Scenario.locked_logout_refused).2).1 = Ret false
  /\ config (Some Scenario.server_url) Scenario.locked_logout_refused
     = run [Some "config"; Some "server"; Some Scenario.server_url] true true
         (logout (status Scenario.locked_logout_refused).2).2
  /\ _session (self (logout (status Scenario.locked_logout_refused).2).2)
     = Some "tok"
  /\ last (trace (config (Some Scenario.server_url)
                    Scenario.locked_logout_refused).2)
     = Some (Exec (Argv [Some "bw"; Some "config"; Some "server";
                         Some Scenario.server_url])
               {["BW_SESSION" := "tok"]}).
Proof. repeat split; reflexivity. Qed.

Lemma config_logs_out_before_setting_server_witness :
  exists ok s2,
    logout (status Scenario.unlocked_logout_accepted).2 = (Ret ok, s2)
    /\ trace s2 = trace (status Scenario.unlocked_logout_accepted).2
                  ++ [Exec (run_command [Some "logout"]
                              (status Scenario.unlocked_logout_accepted).2)
                        (child_env true (status Scenario.unlocked_logout_accepted).2)]
    /\ config (Some Scenario.server_url) Scenario.unlocked_logout_accepted
       = run [Some "config"; Some "server"; Some Scenario.server_url] true true s2
    /\ trace (config (Some Scenario.server_url)
                Scenario.unlocked_logout_accepted).2
       = trace s2 ++ [Exec (run_command [Some "config"; Some "server";
                                         Some Scenario.server_url] s2)
                        (child_env true s2)]
    /\ (ok = true -> _session (self s2) = None)
    /\ (ok = false -> _session (self s2)
                      = _session (self (status Scenario.unlocked_logout_accepted).2)).
Proof.
  apply (config_logs_out_before_setting_server
           Scenario.unlocked_logout_accepted _ Scenario.server_url true).
  - discriminate.
  - reflexivity.
Defined.

Lemma login_as_user_paths_witness :
  login_as_user Scenario.unlocked
    = (Ret true, record ServerThread (status Scenario.unlocked).2)
  /\ login_as_user Scenario.locked_unlocks
     = (Ret true,
        record ServerThread (unlock (status Scenario.locked_unlocks).2).2)
  /\ _session (self (login_as_user Scenario.locked_unlocks).2)
     = Some "unlock-token"
  /\ login_as_user Scenario.unauthenticated
     = login_with_password
         (set_session None (status Scenario.unauthenticated).2)
  /\ login_as_user Scenario.locked_stays_locked
     = login_with_password (unlock (status Scenario.locked_stays_locked).2).2
  /\ _session (self (login_with_password
                       (set_session None (status Scenario.unauthenticated).2)).2)
     = Some "login-token".
Proof.
  destruct (login_as_user_paths (V := Sim.vault) (L := Sim.pylib))
    as (H1 & H2 & H3 & H4 & H5 & _).
  split; [|split; [|split; [|split; [|split]]]].
  - apply H1. reflexivity.
  - eapply H2; reflexivity.
  - reflexivity.
  - apply H3. reflexivity.
  - eapply H4; reflexivity.
  - change (Some "login-token")
      with (Some (PyStr.strip (" login-token " +:+ PyStr.LF))).
    eapply H5; [reflexivity | discriminate].
Defined.

End SessionRuns.

(** ** Facts about vault objects *)

Section ObjectFacts.

Context {W : Type} {V : Vault W} {L : PyLib}.




(** A payload that is neither a [dict] nor a [str] makes [encode] raise
    before any command is run, and [edit] with it. *)
Lemma edit_process_rejects_payload object_type object_id organization_id data
  (st : State W) :
  use_rest (self st) = false ->
  encode_text data = None ->
  edit object_type object_id organization_id data st
  = (Raise (TypeError ("sequence item 1: expected str instance, "
                       +:+ Py.type_name data +:+ " found")), st).
Proof.
  intros Hmode Ht. unfold edit. open_binds. rewrite Hmode.
  unfold encode. open_binds.
  destruct data; try discriminate; reflexivity.
Qed.



End ObjectFacts.

Section ObjectRuns.

#[local] Existing Instances Sim.vault Sim.pylib.



End ObjectRuns.

(** ** Facts about the inheritance dialog *)

Section InheritFacts.

Context {W : Type} {V : Vault W} {L : PyLib}.

Lemma dict_get_set_eq (d : dict) k v : Py.dict_get (Py.dict_set d k v) k = Some v.
Proof.
  induction d as [|[k' v'] d IH]; cbn.
  - rewrite String.eqb_refl. reflexivity.
  - destruct (String.eqb k' k) eqn:E; cbn; rewrite E; [reflexivity | exact IH].
Qed.

Lemma dict_get_set_ne (d : dict) k k' v :
  k <> k' -> Py.dict_get (Py.dict_set d k v) k' = Py.dict_get d k'.
Proof.
  intros Hne. induction d as [|[k0 v0] d IH]; cbn.
  - destruct (String.eqb_spec k k'); [contradiction | reflexivity].
  - destruct (String.eqb_spec k0 k) as [->|]; cbn.
    + destruct (String.eqb_spec k k'); [contradiction | reflexivity].
    + destruct (String.eqb k0 k'); [reflexivity | exact IH].
Qed.

(** Lines 82-85 on a fetched [dict]: a truthy permission value takes the
    place of the field, a falsy one leaves the field alone, and no other
    field changes. *)
Lemma override_permissions_fields (fetched : dict) user_permissions group_permissions :
  exists submitted : dict,
    override_permissions (JObj fetched) user_permissions group_permissions
    = Ret (JObj submitted)
    /\ Py.dict_get submitted "users"
       = (if Py.truthy user_permissions then Some user_permissions
          else Py.dict_get fetched "users")
    /\ Py.dict_get submitted "groups"
       = (if Py.truthy group_permissions then Some group_permissions
          else Py.dict_get fetched "groups")
    /\ (forall k, k <> "users" -> k <> "groups" ->
                  Py.dict_get submitted k = Py.dict_get fetched k).
Proof.
  unfold override_permissions.
  destruct (Py.truthy user_permissions), (Py.truthy group_permissions); cbn;
    eexists; (split; [reflexivity|]).
  - rewrite dict_get_set_ne, !dict_get_set_eq by discriminate.
    repeat split. intros k Hu Hg. rewrite !dict_get_set_ne by congruence.
    reflexivity.
  - rewrite dict_get_set_eq, dict_get_set_ne by discriminate.
    repeat split. intros k Hu Hg. rewrite dict_get_set_ne by congruence.
    reflexivity.
  - rewrite dict_get_set_eq, dict_get_set_ne by discriminate.
    repeat split. intros k Hu Hg. rewrite dict_get_set_ne by congruence.
    reflexivity.
  - repeat split.
Qed.

(** The loop body on a target whose collection was fetched: the
    collection that is submitted is the fetched one after lines 82-85. *)
Lemma inherit_one_fetched (st st1 : State W) organization_id collection_id
  user_permissions group_permissions has_failures (fetched : dict) name submitted :
  org_collection (Some organization_id) (Some collection_id) JNull st
    = (Ret (JObj fetched), st1) ->
  Py.dict_get fetched "name" = Some name ->
  override_permissions (JObj fetched) user_permissions group_permissions
    = Ret submitted ->
  inherit_one organization_id user_permissions group_permissions
    has_failures collection_id st
  = try_except
      (submit_collection organization_id collection_id has_failures submitted)
      (report_error collection_id has_failures) st1.
Proof.
  intros Hfetch Hname Hover.
  unfold inherit_one, try_except, mbind, M_bind, bind. rewrite Hfetch.
  cbv beta iota zeta.
  assert (Py.truthy (JObj fetched) = true) as ->.
  { destruct fetched; [discriminate | reflexivity]. }
  cbn [negb]. unfold lift at 1. unfold Py.getitem at 1. rewrite Hname.
  cbv beta iota zeta. unfold lift at 1. rewrite Hover. reflexivity.
Qed.

(** The loop body on a target whose fetch gives nothing: the message is
    written, and [has_failures] is what it was. *)
Lemma inherit_one_not_found (st st1 : State W) organization_id collection_id
  user_permissions group_permissions has_failures missing :
  org_collection (Some organization_id) (Some collection_id) JNull st
    = (Ret missing, st1) ->
  Py.truthy missing = false ->
  inherit_one organization_id user_permissions group_permissions
    has_failures collection_id st
  = (Ret (Continue, has_failures),
     set_window (mkWindow (progress_text (window st1))
                   (output (window st1)
                    +:+ ("Collection " +:+ collection_id +:+ " not found")
                    +:+ "." +:+ PyStr.LF)) st1).
Proof.
  intros Hfetch Hfalsy.
  unfold inherit_one, try_except, mbind, M_bind, bind. rewrite Hfetch.
  cbv beta iota zeta. rewrite Hfalsy. reflexivity.
Qed.

End InheritFacts.

(** C6: in the loop body of an inheritance run, for a target whose
    collection was fetched, the collection handed to the update has its
    [users] entry equal to the supplied user permissions when these are
    non-empty (truthy) and equal to the fetched entry otherwise, likewise
    for [groups], and every other entry as fetched. In particular, with
    [Parent] (c1) and [Parent/Child] (c2) in organization [org-1], a run
    against [c2] with users [[{"id": "u1", "readOnly": true}]] and groups
    [[]] leaves c2 with exactly these users and its groups as they were,
    and reports 1 of 1 processed, one success line and the success
    popup. *)
Theorem inheritance_replaces_supplied_permissions :
  (forall (W : Type) (V : Vault W) (L : PyLib) (st st1 : State W)
          organization_id collection_id user_permissions group_permissions
          has_failures (fetched : dict) name,
      org_collection (Some organization_id) (Some collection_id) JNull st
        = (Ret (JObj fetched), st1) ->
      Py.dict_get fetched "name" = Some name ->
      exists submitted : dict,
        inherit_one organization_id user_permissions group_permissions
          has_failures collection_id st
        = try_except
            (submit_collection organization_id collection_id has_failures
               (JObj submitted))
            (report_error collection_id has_failures) st1
        /\ Py.dict_get submitted "users"
           = (if Py.truthy user_permissions then Some user_permissions
              else Py.dict_get fetched "users")
        /\ Py.dict_get submitted "groups"
           = (if Py.truthy group_permissions then Some group_permissions
              else Py.dict_get fetched "groups")
        /\ (forall k, k <> "users" -> k <> "groups" ->
                      Py.dict_get submitted k = Py.dict_get fetched k))
  /\ (exists final c2,
        inherit_permissions (V := Sim.vault) (L := Sim.pylib)
          "org-1" ["c2"] Scenario.supplied_users (JArr [])
          Scenario.one_run Scenario.parent_and_child
        = (Ret tt, final)
        /\ Py.dict_get (Sim.store (world final)) "c2" = Some c2
        /\ Py.getitem c2 "users" = Ret Scenario.supplied_users
        /\ Py.getitem c2 "groups" = Py.getitem Scenario.child "groups"
        /\ progress_text (window final) = "1/1 collections processed"
        /\ output (window final)
           = "Updated collection Parent/Child with users and groups."
             +:+ PyStr.LF
        /\ popups final = [Popup "All collections updated successfully."]).
Proof.
  split.
  - intros W V L st st1 org cid up gp hf fetched name Hfetch Hname.
    destruct (override_permissions_fields fetched up gp)
      as (submitted & Hover & Hu & Hg & Hk).
    exists submitted. split; [|auto].
    eapply inherit_one_fetched; eassumption.
  - eexists _, _. split; [vm_compute; reflexivity|].
    repeat split.
Qed.

Section InheritRuns.

#[local] Existing Instances Sim.vault Sim.pylib.

Lemma inheritance_replaces_supplied_permissions_witness :
  exists submitted : dict,
    inherit_one "org-1" Scenario.supplied_users (JArr []) false "c2"
      Scenario.parent_and_child
    = try_except
        (submit_collection "org-1" "c2" false (JObj submitted))
        (report_error "c2" false)
        (org_collection (Some "org-1") (Some "c2") JNull
           Scenario.parent_and_child).2
    /\ Py.dict_get submitted "users" = Some Scenario.supplied_users
    /\ Py.dict_get submitted "groups"
       = Py.dict_get Scenario.child_fields "groups"
    /\ (forall k, k <> "users" -> k <> "groups" ->
                  Py.dict_get submitted k = Py.dict_get Scenario.child_fields k).
Proof.
  destruct inheritance_replaces_supplied_permissions as [Hloop _].
  apply (Hloop Sim.world Sim.vault Sim.pylib Scenario.parent_and_child _
           "org-1" "c2" Scenario.supplied_users (JArr []) false
           Scenario.child_fields (JStr "Parent/Child")); reflexivity.
Defined.

(** C1 at three targets of which the second is missing. Every target is
    fetched once, in input order, the first and the third are updated and
    the second gets its "not found" line; but the run ends with the popup
    of a run without failures, the same popup as when all three targets
    are there: [has_failures] is not set on the "not found" path. *)
Theorem missing_target_reported_as_success :
  exists final final',
    inherit_permissions "org-1" ["k1"; "k2"; "k3"] Scenario.supplied_users
      (JArr []) Scenario.one_run Scenario.middle_missing
    = (Ret tt, final)
    /\ inherit_permissions "org-1" ["k1"; "k2"; "k3"] Scenario.supplied_users
         (JArr []) Scenario.one_run Scenario.all_present
       = (Ret tt, final')
    /\ Scenario.read_endpoints (trace final)
       = [Sim.read_path "k1"; Sim.read_path "k2"; Sim.read_path "k3"]
    /\ output (window final)
       = "Updated collection Parent/A with users and groups." +:+ PyStr.LF
         +:+ "Collection k2 not found." +:+ PyStr.LF
         +:+ "Updated collection Parent/C with users and groups." +:+ PyStr.LF
    /\ popups final = [Popup "All collections updated successfully."]
    /\ popups final' = popups final.
Proof.
  eexists _, _.
  split; [vm_compute; reflexivity|].
  split; [vm_compute; reflexivity|].
  repeat split.
Qed.

End InheritRuns.

(** ** More about the transport *)

Section TransportMore.

Context {W : Type} {V : Vault W} {L : PyLib}.

(** X1: whatever the token, the flags and the executable's answer, [run]
    leaves every environment variable other than [BW_SESSION] as it found
    it, does not change the client object, the window or the popups, and
    makes exactly one call of [command_runner]. *)
Theorem run_touches_only_session_variable args ws raw (st : State W) :
  delete "BW_SESSION" (environ (run args ws raw st).2)
    = delete "BW_SESSION" (environ st)
  /\ self (run args ws raw st).2 = self st
  /\ window (run args ws raw st).2 = window st
  /\ popups (run args ws raw st).2 = popups st
  /\ trace (run args ws raw st).2
     = trace st ++ [Exec (run_command args st) (child_env ws st)].
Proof.
  rewrite run_eq. cbn. repeat split.
  unfold env_after_run, child_env.
  destruct (_session (self st)) as [tok|]; cbn; [|reflexivity].
  destruct ws, (PyStr.nonempty tok); cbn;
    rewrite ?delete_delete_eq, ?delete_insert_eq; reflexivity.
Qed.



(** X4: what [run_as_rest] makes of a success envelope: for a list it
    returns the inner [data] of the envelope's [data]; for one of the
    known single-object kinds it returns the envelope's [data]; for any
    other kind it returns [None]; and when the envelope has no [data] it
    raises [KeyError]. *)
Theorem run_as_rest_unwraps path data (st : State W) envelope w :
  use_rest (self st) = true ->
  requestor path (rest_action data) data (rest_world st) = (JObj envelope, w) ->
  Py.dict_get envelope "success" = Some (JBool true) ->
  (forall body items,
      Py.dict_get envelope "data" = Some (JObj body) ->
      Py.dict_get body "object" = Some (JStr "list") ->
      Py.dict_get body "data" = Some items ->
      (run_as_rest path data st).1 = Ret items)
  /\ (forall body kind,
      Py.dict_get envelope "data" = Some (JObj body) ->
      Py.dict_get body "object" = Some (JStr kind) ->
      In kind single_object_kinds ->
      (run_as_rest path data st).1 = Ret (JObj body))
  /\ (forall body kind,
      Py.dict_get envelope "data" = Some (JObj body) ->
      Py.dict_get body "object" = Some (JStr kind) ->
      kind <> "list" ->
      ~ In kind single_object_kinds ->
      (run_as_rest path data st).1 = Ret JNull)
  /\ (Py.dict_get envelope "data" = None ->
      (run_as_rest path data st).1 = Raise (KeyError "data")).
Proof.
  intros Hrest Hr Hs.
  rewrite run_as_rest_eq by assumption. cbn. rewrite Hr. cbn.
  assert (Py.truthy (JObj envelope) = true) as Ht.
  { destruct envelope; [discriminate | reflexivity]. }
  assert (forall rest : outcome json,
             match Py.getitem (JObj envelope) "success" with
             | Ret success => if Py.is_True success then rest else Ret JNull
             | Raise e => Raise e
             end = rest) as Hsuccess.
  { intros rest. unfold Py.getitem. rewrite Hs. reflexivity. }
  unfold unwrap_response. rewrite Ht, Hsuccess. clear Hsuccess.
  unfold Py.getitem.
  split; [|split; [|split]].
  - intros body items Hd Ho Hi. rewrite Hd, Ho. cbn.
    rewrite Hi. reflexivity.
  - intros body kind Hd Ho Hin. rewrite Hd, Ho.
    cbn [Py.eq_str].
    destruct (String.eqb_spec kind "list") as [->|Hne].
    + exfalso. revert Hin. cbn. intuition discriminate.
    + assert (Py.in_strs (JStr kind) single_object_kinds = true) as ->;
        [|reflexivity].
      unfold Py.in_strs. apply existsb_exists. exists kind.
      split; [exact Hin | apply String.eqb_refl].
  - intros body kind Hd Ho Hne Hnin. rewrite Hd, Ho.
    cbn [Py.eq_str].
    destruct (String.eqb_spec kind "list"); [contradiction|].
    assert (Py.in_strs (JStr kind) single_object_kinds = false) as ->;
      [|reflexivity].
    apply not_true_is_false. intros Hex. unfold Py.in_strs in Hex.
    apply existsb_exists in Hex as (k & Hk & Heq). cbn in Heq.
    apply String.eqb_eq in Heq. subst. contradiction.
  - intros Hd. rewrite Hd. reflexivity.
Qed.

End TransportMore.

Section TransportMoreRuns.

#[local] Existing Instances Sim.vault Sim.pylib.



Lemma run_as_rest_unwraps_witness :
  (run_as_rest (Sim.read_path "c1") JNull Scenario.rest_parent).1
  = Ret Scenario.parent.
Proof.
  assert (Py.dict_get [("success", JBool true); ("data", Scenario.parent)]
            "success" = Some (JBool true)) as Hsuccess by reflexivity.
  eapply (run_as_rest_unwraps (Sim.read_path "c1") JNull Scenario.rest_parent)
    in Hsuccess as (_ & Hsingle & _); [|reflexivity|reflexivity].
  apply (Hsingle _ "org-collection"); [reflexivity | reflexivity |].
  cbn. tauto.
Defined.

End TransportMoreRuns.

(** ** More about the session *)

Section SessionMore.

Context {W : Type} {V : Vault W} {L : PyLib}.

Lemma lstrip_isspace (s : string) :
  isspace_str s = true -> PyStr.lstrip s = "".
Proof.
  induction s as [|c r IH]; [discriminate|]. cbn.
  destruct r as [|c' r'].
  - intros ->. reflexivity.
  - intros Hs. apply andb_prop in Hs as [-> Hr]. apply IH, Hr.
Qed.

Lemma strip_isspace (s : string) : isspace_str s = true -> PyStr.strip s = "".
Proof. intros Hs. unfold PyStr.strip. rewrite (lstrip_isspace _ Hs). reflexivity. Qed.

Lemma isspace_nonempty (s : string) : isspace_str s = true -> s <> "".
Proof. destruct s; [discriminate | discriminate]. Qed.


(** X6: [unlock] passes the stored password to [unlock --raw]; when the
    command exits with code 0 and prints something it stores the output
    stripped of surrounding whitespace as the session token and returns
    [True]; otherwise it returns [False] and the token is what it was. It
    never raises. *)
Theorem unlock_stores_stripped_token (st : State W) exit_code out w :
  command_runner
    (run_command [Some "unlock"; Some "--raw"; Some (_password (self st))] st)
    (child_env true st) (world st) = (exit_code, out, w) ->
  (exit_code = 0%Z -> out <> "" ->
   (unlock st).1 = Ret true
   /\ _session (self (unlock st).2) = Some (PyStr.strip out))
  /\ (exit_code <> 0%Z \/ out = "" ->
      (unlock st).1 = Ret false
      /\ _session (self (unlock st).2) = _session (self st)).
Proof.
  intros Hc. rewrite unlock_eq. cbv zeta. rewrite Hc. cbn [fst snd].
  split.
  - intros -> Hout. rewrite (nonempty_true _ Hout). cbn. split; reflexivity.
  - intros [Hcode | ->].
    + destruct (Z.eqb_spec exit_code 0); [contradiction|]. cbn. split; reflexivity.
    + rewrite andb_false_r. split; reflexivity.
Qed.

(** X7: when the unlock command exits with code 0 and prints only
    whitespace, [unlock] returns [True] and the stored token is the empty
    string; the stored token is then falsy, so later calls of [run] put
    no [BW_SESSION] into the child's environment. *)
Theorem unlock_blank_output_stores_empty_token (st : State W) out w :
  command_runner
    (run_command [Some "unlock"; Some "--raw"; Some (_password (self st))] st)
    (child_env true st) (world st) = (0%Z, out, w) ->
  isspace_str out = true ->
  (unlock st).1 = Ret true
  /\ _session (self (unlock st).2) = Some ""
  /\ child_env true (unlock st).2 = environ (unlock st).2.
Proof.
  intros Hc Hs.
  assert ((unlock st).1 = Ret true
          /\ _session (self (unlock st).2) = Some (PyStr.strip out))
    as [Hr Htok].
  { rewrite unlock_eq. cbv zeta. rewrite Hc. cbn [fst snd].
    rewrite (nonempty_true _ (isspace_nonempty _ Hs)). cbn.
    split; reflexivity. }
  rewrite (strip_isspace _ Hs) in Htok.
  split; [exact Hr|]. split; [exact Htok|].
  unfold child_env. rewrite Htok. reflexivity.
Qed.

(** X8: when [status] reports neither locked nor unlocked, [config] runs
    no logout: the only commands are the status command and the
    [config server] command, the latter with the URL and in raw mode when
    a non-empty URL is given and without it, decoding the output,
    otherwise. The client object is unchanged. *)
Theorem config_without_session_runs_no_logout (st s1 : State W) server_url :
  status st = (Ret None, s1) ->
  config server_url st
  = (if Py.truthy_str server_url
     then run [Some "config"; Some "server"; server_url] true true s1
     else run [Some "config"; Some "server"] true false s1)
  /\ trace (config server_url st).2
     = trace st
       ++ [Exec (run_command [Some "status"] st) (child_env true st);
           Exec (run_command
                   ([Some "config"; Some "server"]
                    ++ (if Py.truthy_str server_url then [server_url] else []))
                   s1)
             (child_env true s1)]
  /\ self (config server_url st).2 = self st.
Proof.
  intros Hst.
  assert (config server_url st
          = (if Py.truthy_str server_url
             then run [Some "config"; Some "server"; server_url] true true s1
             else run [Some "config"; Some "server"] true false s1)) as Heq.
  { unfold config. open_binds. rewrite Hst. unfold ret. cbv beta iota zeta.
    destruct (Py.truthy_str server_url); reflexivity. }
  split; [exact Heq|]. rewrite Heq.
  pose proof (status_trace _ _ _ Hst) as Htr.
  assert (self s1 = self st) as Hself.
  { rewrite status_eq in Hst. cbv zeta in Hst. injection Hst as _ <-. reflexivity. }
  destruct (Py.truthy_str server_url); rewrite run_eq; cbn;
    rewrite Htr, <- app_assoc; split; auto.
Qed.

Lemma login_as_api_eq (st s1 : State W) s client_id client_secret :
  status st = (Ret s, s1) ->
  s <> Some true ->
  login_as_api client_id client_secret st =
    let args := login_as_api_args client_id client_secret in
    let r := command_runner (run_command args s1) (child_env true s1) (world s1) in
    let s2 := after_run args true r.2 s1 in
    if (r.1.1 =? 0)%Z && PyStr.nonempty r.1.2
    then (Ret true, set_session (Some (PyStr.strip r.1.2)) s2)
    else (Ret false, s2).
Proof.
  intros Hst Hs. unfold login_as_api. open_binds. rewrite Hst.
  cbv beta iota zeta.
  assert (forall (A : Type) (x y : A),
             match s with Some true => x | _ => y end = y) as ->.
  { intros A x y. destruct s as [[]|]; [contradiction | reflexivity | reflexivity]. }
  open_binds. rewrite run_eq. cbv beta iota zeta.
  destruct (Py.truthy _) eqn:Ht.
  - unfold lift. rewrite (strip_raw_result _ _ Ht).
    rewrite truthy_raw_result in Ht. rewrite Ht. reflexivity.
  - rewrite truthy_raw_result in Ht. rewrite Ht. reflexivity.
Qed.

(** X9: [login_as_api] returns [True] at once when [status] reports
    unlocked, running nothing more. In every other case (locked
    included) it runs [login --apikey --raw] with the client id and secret
    and nothing else: no unlock and no server thread; it stores the
    stripped output as the session token and returns [True] when the
    command exits with code 0 and prints something, and returns [False]
    with the token unchanged otherwise. *)
Theorem login_as_api_paths client_id client_secret :
  (forall (st s1 : State W),
      status st = (Ret (Some true), s1) ->
      login_as_api client_id client_secret st = (Ret true, s1))
  /\ (forall (st s1 : State W) s exit_code out w,
      status st = (Ret s, s1) ->
      s <> Some true ->
      command_runner
        (run_command (login_as_api_args client_id client_secret) s1)
        (child_env true s1) (world s1) = (exit_code, out, w) ->
      trace (login_as_api client_id client_secret st).2
      = trace s1
        ++ [Exec (run_command (login_as_api_args client_id client_secret) s1)
              (child_env true s1)]
      /\ (exit_code = 0%Z -> out <> "" ->
          (login_as_api client_id client_secret st).1 = Ret true
          /\ _session (self (login_as_api client_id client_secret st).2)
             = Some (PyStr.strip out))
      /\ (exit_code <> 0%Z \/ out = "" ->
          (login_as_api client_id client_secret st).1 = Ret false
          /\ _session (self (login_as_api client_id client_secret st).2)
             = _session (self s1))).
Proof.
  split.
  - intros st s1 Hst. unfold login_as_api. open_binds. rewrite Hst. reflexivity.
  - intros st s1 s code out w Hst Hs Hc.
    rewrite (login_as_api_eq _ _ _ _ _ Hst Hs). cbv zeta. rewrite Hc.
    cbn [fst snd].
    split; [destruct (_ && _); reflexivity|]. split.
    + intros -> Hout. rewrite (nonempty_true _ Hout). cbn. split; reflexivity.
    + intros [Hcode | ->].
      * destruct (Z.eqb_spec code 0); [contradiction|]. cbn. split; reflexivity.
      * rewrite andb_false_r. split; reflexivity.
Qed.

(** X10: when [status] reports unauthenticated (or nothing it knows),
    [login_as_user] discards the stored token before the login: the login
    command is given the environment as it is, with no token put in, and
    when the login fails the client is left with no token and [False] is
    returned. *)
Theorem login_as_user_discards_stale_token (st s1 : State W) exit_code out w :
  status st = (Ret None, s1) ->
  command_runner (run_command (login_args (self s1)) s1) (environ s1) (world s1)
    = (exit_code, out, w) ->
  trace (login_as_user st).2
  = trace s1
    ++ Exec (run_command (login_args (self s1)) s1) (environ s1)
       :: (if (exit_code =? 0)%Z && PyStr.nonempty out then [ServerThread] else [])
  /\ (exit_code <> 0%Z \/ out = "" ->
      (login_as_user st).1 = Ret false
      /\ _session (self (login_as_user st).2) = None).
Proof.
  intros Hst Hc.
  assert (login_as_user st = login_with_password (set_session None s1)) as ->.
  { unfold login_as_user. open_binds. rewrite Hst. reflexivity. }
  rewrite login_with_password_eq. cbv zeta.
  change (command_runner
            (run_command (login_args (self (set_session None s1)))
               (set_session None s1))
            (child_env true (set_session None s1))
            (world (set_session None s1)))
    with (command_runner (run_command (login_args (self s1)) s1) (environ s1)
            (world s1)).
  rewrite Hc. cbn [fst snd]. split.
  - destruct (_ && _); cbn; rewrite <- ?app_assoc; reflexivity.
  - intros [Hcode | ->].
    + destruct (Z.eqb_spec exit_code 0); [contradiction|]. cbn. split; reflexivity.
    + rewrite andb_false_r. split; reflexivity.
Qed.

End SessionMore.

Section SessionMoreRuns.

#[local] Existing Instances Sim.vault Sim.pylib.


Lemma unlock_stores_stripped_token_witness :
  ((unlock More.unlock_accepted).1 = Ret true
   /\ _session (self (unlock More.unlock_accepted).2) = Some "unlock-token")
  /\ ((unlock Scenario.failing).1 = Ret false
      /\ _session (self (unlock Scenario.failing).2) = Some "tok").
Proof.
  split.
  - change (Some "unlock-token")
      with (Some (PyStr.strip ("unlock-token" +:+ PyStr.LF))).
    eapply (unlock_stores_stripped_token More.unlock_accepted);
      [reflexivity | reflexivity | vm_compute; discriminate].
  - eapply (unlock_stores_stripped_token Scenario.failing);
      [reflexivity | left; vm_compute; discriminate].
Defined.

Lemma unlock_blank_output_stores_empty_token_witness :
  (unlock More.blank_unlock).1 = Ret true
  /\ _session (self (unlock More.blank_unlock).2) = Some ""
  /\ child_env true (unlock More.blank_unlock).2
     = environ (unlock More.blank_unlock).2.
Proof.
  eapply (unlock_blank_output_stores_empty_token More.blank_unlock);
    reflexivity.
Defined.

Lemma config_without_session_runs_no_logout_witness :
  trace (config (Some Scenario.server_url) More.odd_status).2
  = [Exec (Argv [Some "bw"; Some "status"]) {["BW_SESSION" := "tok"]};
     Exec (Argv [Some "bw"; Some "config"; Some "server";
                 Some Scenario.server_url]) {["BW_SESSION" := "tok"]}].
Proof.
  assert (status More.odd_status = (Ret None, (status More.odd_status).2))
    as Hstatus by reflexivity.
  destruct (config_without_session_runs_no_logout _ _
              (Some Scenario.server_url) Hstatus) as (_ & Htrace & _).
  exact Htrace.
Defined.

Lemma login_as_api_paths_witness :
  (login_as_api (Some "user.id") (Some "secret") More.locked_api_login).1
  = Ret true
  /\ _session (self (login_as_api (Some "user.id") (Some "secret")
                      More.locked_api_login).2)
     = Some "api-token".
Proof.
  destruct (login_as_api_paths (V := Sim.vault) (L := Sim.pylib)
              (Some "user.id") (Some "secret")) as [_ Hlogin].
  change (Some "api-token")
    with (Some (PyStr.strip (" api-token " +:+ PyStr.LF))).
  eapply (Hlogin More.locked_api_login _ (Some false));
    [reflexivity | vm_compute; discriminate | reflexivity | reflexivity | vm_compute; discriminate].
Defined.

Lemma login_as_user_discards_stale_token_witness :
  (login_as_user More.unauthenticated_refused).1 = Ret false
  /\ _session (self (login_as_user More.unauthenticated_refused).2) = None.
Proof.
  eapply (login_as_user_discards_stale_token More.unauthenticated_refused);
    [reflexivity | reflexivity | left; vm_compute; discriminate].
Defined.

End SessionMoreRuns.

(** ** The body of [run_server] *)

Section ServerFacts.

Context {W : Type} {V : Vault W} {L : PyLib}.

(** The environment after the first statement of the body: the token, if
    there is one, is in [BW_SESSION]. *)
Lemma server_env_eq (st : State W) :
  child_env true st
  = match _session (self st) with
    | Some tok => if PyStr.nonempty tok
                  then <["BW_SESSION" := tok]> (environ st) else environ st
    | None => environ st
    end.
Proof. reflexivity. Qed.

(** X11: in REST mode with the server not yet marked as running, the body
    of [run_server] starts [bw serve --hostname <host> --port <port>] once,
    in an environment that holds the token (if there is one) as
    [BW_SESSION], marks the server as running, takes [BW_SESSION] out of
    the environment again when a token is stored, and registers the
    kill of that process at exit. *)
Theorem run_server_body_starts_sidecar (st : State W) pid w :
  use_rest (self st) = true ->
  _rest_is_running (self st) = false ->
  popen [bw_executable (self st); "serve"; "--hostname"; _host (self st);
         "--port"; pretty (_port (self st))]
    (child_env true st) (world st) = (pid, w) ->
  (run_server_body st).1 = Ret None
  /\ trace (run_server_body st).2
     = trace st
       ++ [Popen [bw_executable (self st); "serve"; "--hostname";
                  _host (self st); "--port"; pretty (_port (self st))]
             (child_env true st);
           AtExit pid]
  /\ _rest_is_running (self (run_server_body st).2) = true
  /\ _session (self (run_server_body st).2) = _session (self st)
  /\ environ (run_server_body st).2 = env_after_run true st
  /\ world (run_server_body st).2 = w.
Proof.
  intros Hrest Hrun Hp.
  unfold run_server_body, env_after_run, child_env in *.
  unfold mbind, M_bind, bind, gets, modify, ret, call_popen.
  destruct st as [c e w0 t wi p]. cbn [self environ world trace window popups] in *.
  rewrite Hrest, Hrun. cbn [negb].
  destruct (_session c) as [tok|] eqn:Hs; cbn;
    [destruct (PyStr.nonempty tok) eqn:Hn; cbn|];
    cbn [andb] in Hp; rewrite Hp; cbn; rewrite ?Hs; cbn; rewrite ?Hn; cbn;
    rewrite <- ?app_assoc; repeat split.
Qed.

(** X12: the body of [run_server] returns early, starting no process,
    when the client is not in REST mode ([False]) and when the server is
    already marked as running ([True]). On both paths a non-empty token
    has been put into [BW_SESSION] and is not taken out again: it stays
    in the process environment. *)
Theorem run_server_body_early_return_leaves_token (st : State W) tok :
  use_rest (self st) = false \/ _rest_is_running (self st) = true ->
  _session (self st) = Some tok ->
  tok <> "" ->
  (run_server_body st).1 = Ret (Some (use_rest (self st)))
  /\ trace (run_server_body st).2 = trace st
  /\ self (run_server_body st).2 = self st
  /\ environ (run_server_body st).2 = <["BW_SESSION" := tok]> (environ st)
  /\ environ (run_server_body st).2 !! "BW_SESSION" = Some tok.
Proof.
  intros Hearly Hs Htok.
  unfold run_server_body.
  unfold mbind, M_bind, bind, gets, modify, ret.
  destruct st as [c e w0 t wi p]. cbn [self environ world trace window popups] in *.
  rewrite Hs, (nonempty_true _ Htok). cbn.
  destruct (use_rest c) eqn:Hrest; cbn.
  - destruct Hearly as [|Hrun]; [discriminate|]. rewrite Hrun. cbn.
    repeat split. apply lookup_insert_eq.
  - repeat split. apply lookup_insert_eq.
Qed.

Lemma run_server_body_marks_running (st : State W) :
  use_rest (self st) = true ->
  _rest_is_running (self st) = false ->
  _rest_is_running (self (run_server_body st).2) = true.
Proof.
  intros Hrest Hrun.
  unfold run_server_body.
  unfold mbind, M_bind, bind, gets, modify, ret, call_popen.
  destruct st as [c e w0 t wi p]. cbn [self environ world trace window popups] in *.
  rewrite Hrest, Hrun. cbn [negb].
  destruct (_session c) as [tok|] eqn:Hs; cbn;
    [destruct (PyStr.nonempty tok) eqn:Hn; cbn|];
    destruct (popen _ _ _) as [pid w]; cbn; rewrite ?Hs; cbn; rewrite ?Hn;
    reflexivity.
Qed.

Lemma run_server_body_keeps_mode (st : State W) :
  use_rest (self (run_server_body st).2) = use_rest (self st).
Proof.
  unfold run_server_body.
  unfold mbind, M_bind, bind, gets, modify, ret, call_popen.
  destruct st as [c e w0 t wi p]. cbn [self environ world trace window popups].
  destruct (_session c) as [tok|]; [destruct (PyStr.nonempty tok)|]; cbn;
    (destruct (use_rest c) eqn:Hmode; cbn; [|exact Hmode];
     destruct (_rest_is_running c); cbn; [exact Hmode|];
     destruct (popen _ _ _) as [pid w]; cbn;
     try exact Hmode;
     destruct (PyStr.nonempty _); exact Hmode).
Qed.

(** X13: running the body of [run_server] a second time starts no second
    process: after a first run that started the sidecar, the body returns
    [True] and makes no call. *)
Theorem run_server_body_is_idempotent (st : State W) :
  use_rest (self st) = true ->
  _rest_is_running (self st) = false ->
  (run_server_body (run_server_body st).2).1 = Ret (Some true)
  /\ trace (run_server_body (run_server_body st).2).2
     = trace (run_server_body st).2
  /\ world (run_server_body (run_server_body st).2).2
     = world (run_server_body st).2.
Proof.
  intros Hrest Hrun.
  pose proof (run_server_body_marks_running st Hrest Hrun) as Hflag.
  assert (use_rest (self (run_server_body st).2) = true) as Hrest'.
  { rewrite run_server_body_keeps_mode. exact Hrest. }
  remember (run_server_body st).2 as s1 eqn:Hs1. clear Hs1.
  unfold run_server_body.
  unfold mbind, M_bind, bind, gets, modify, ret.
  destruct s1 as [c e w0 t wi p]. cbn [self environ world trace window popups] in *.
  rewrite Hrest', Hflag. cbn [negb].
  destruct (_session c) as [tok|]; cbn;
    [destruct (PyStr.nonempty tok); cbn|]; repeat split.
Qed.

End ServerFacts.

Section ServerRuns.

#[local] Existing Instances Sim.vault Sim.pylib.

Lemma run_server_body_starts_sidecar_witness :
  trace (run_server_body Scenario.rest_parent).2
  = [Popen ["bw"; "serve"; "--hostname"; "localhost"; "--port"; "8087"]
       {["BW_SESSION" := "tok"]};
     AtExit 4242]
  /\ environ (run_server_body Scenario.rest_parent).2 !! "BW_SESSION" = None.
Proof.
  destruct (run_server_body_starts_sidecar (V := Sim.vault)
              Scenario.rest_parent 4242%Z (world Scenario.rest_parent)
              eq_refl eq_refl eq_refl) as (_ & Htrace & _ & _ & Henv & _).
  split; [exact Htrace|]. rewrite Henv. reflexivity.
Defined.

Lemma run_server_body_early_return_leaves_token_witness :
  (run_server_body Scenario.with_token).1 = Ret (Some false)
  /\ environ (run_server_body Scenario.with_token).2 !! "BW_SESSION"
     = Some "tok".
Proof.
  destruct (run_server_body_early_return_leaves_token (V := Sim.vault) Scenario.with_token "tok")
    as (Hresult & _ & _ & _ & Henv).
  - left. reflexivity.
  - reflexivity.
  - discriminate.
  - split; [exact Hresult | exact Henv].
Defined.

Lemma run_server_body_is_idempotent_witness :
  (run_server_body (run_server_body Scenario.rest_parent).2).1
  = Ret (Some true)
  /\ trace (run_server_body (run_server_body Scenario.rest_parent).2).2
     = trace (run_server_body Scenario.rest_parent).2.
Proof.
  destruct (run_server_body_is_idempotent (V := Sim.vault)
              Scenario.rest_parent eq_refl eq_refl) as (Hr & Ht & _).
  split; assumption.
Defined.

End ServerRuns.

(** ** What the methods leave alone *)

Section FrameFacts.

Context {W : Type} {V : Vault W} {L : PyLib}.

Lemma keeps_ret {A B} (f : State W -> B) (a : A) : keeps f (ret a).
Proof. intros st. reflexivity. Qed.

Lemma keeps_raise {A B} (f : State W -> B) e : keeps f (raise (A := A) e).
Proof. intros st. reflexivity. Qed.

Lemma keeps_lift {A B} (f : State W -> B) (o : outcome A) : keeps f (lift o).
Proof. intros st. reflexivity. Qed.

Lemma keeps_gets {A B} (f : State W -> B) (g : State W -> A) : keeps f (gets g).
Proof. intros st. reflexivity. Qed.

Lemma keeps_modify {B} (f : State W -> B) (g : State W -> State W) :
  (forall st, f (g st) = f st) -> keeps f (modify g).
Proof. intros Hg st. apply Hg. Qed.

Lemma keeps_bind {A C B} (f : State W -> B) (m : M A) (k : A -> M C) :
  keeps f m -> (forall a, keeps f (k a)) -> keeps f (bind m k).
Proof.
  intros Hm Hk st. unfold bind. specialize (Hm st).
  destruct (m st) as [[a|e] st']; cbn in *.
  - rewrite Hk. exact Hm.
  - exact Hm.
Qed.

Lemma keeps_try_except {A B} (f : State W -> B) (m : M A) (h : exn -> M A) :
  keeps f m -> (forall e, keeps f (h e)) -> keeps f (try_except m h).
Proof.
  intros Hm Hh st. unfold try_except. specialize (Hm st).
  destruct (m st) as [[a|e] st']; cbn in *.
  - exact Hm.
  - rewrite Hh. exact Hm.
Qed.

Lemma keeps_run {B} (f : State W -> B) args ws raw :
  (forall st e w t, f (mkState (self st) e w t (window st) (popups st)) = f st) ->
  keeps f (run args ws raw).
Proof. intros Hf st. rewrite run_eq. cbn. apply Hf. Qed.

Lemma keeps_call_requestor {B} (f : State W -> B) path action data :
  (forall st e w t, f (mkState (self st) e w t (window st) (popups st)) = f st) ->
  keeps f (call_requestor path action data).
Proof.
  intros Hf st. unfold call_requestor.
  destruct (requestor _ _ _ _) as [r w].
  unfold set_world, record. cbn [fst snd self environ world trace window popups].
  apply Hf.
Qed.

Lemma keeps_call_command_runner {B} (f : State W -> B) cmd :
  (forall st e w t, f (mkState (self st) e w t (window st) (popups st)) = f st) ->
  keeps f (call_command_runner cmd).
Proof.
  intros Hf st. unfold call_command_runner.
  destruct (command_runner _ _ _) as [[c o] w].
  unfold set_world, record. cbn [fst snd self environ world trace window popups].
  apply Hf.
Qed.

Lemma keeps_run_as_rest {B} (f : State W -> B) path data :
  (forall st e w t, f (mkState (self st) e w t (window st) (popups st)) = f st) ->
  keeps f (run_as_rest path data).
Proof.
  intros Hf. unfold run_as_rest. unfold mbind, M_bind.
  apply keeps_bind; [apply keeps_gets|]. intros cli.
  apply keeps_bind.
  { destruct (use_rest cli); [apply keeps_ret | apply keeps_raise]. }
  intros _. apply keeps_bind; [apply keeps_gets|]. intros has.
  apply keeps_bind.
  { destruct (negb has); [|apply keeps_ret].
    apply keeps_modify. intros st. unfold set_world, record.
    cbn [self environ world trace window popups]. apply Hf. }
  intros _. apply keeps_bind; [apply keeps_call_requestor, Hf|].
  intros result. apply keeps_lift.
Qed.

Lemma keeps_encode {B} (f : State W -> B) data :
  (forall st e w t, f (mkState (self st) e w t (window st) (popups st)) = f st) ->
  keeps f (encode data).
Proof.
  intros Hf. unfold encode. unfold mbind, M_bind.
  apply keeps_bind; [apply keeps_gets|]. intros cli. cbv zeta.
  destruct (match data with JObj d => JStr (json_dumps d) | _ => data end);
    try apply keeps_raise.
  apply keeps_bind; [apply keeps_call_command_runner, Hf|].
  intros [code out]. destruct (code =? 0)%Z; apply keeps_ret.
Qed.

Lemma keeps_get {B} (f : State W -> B) object_type object_id organization_id :
  (forall st e w t, f (mkState (self st) e w t (window st) (popups st)) = f st) ->
  keeps f (get object_type object_id organization_id).
Proof.
  intros Hf. unfold get. unfold mbind, M_bind.
  apply keeps_bind; [apply keeps_gets|]. intros cli.
  destruct (use_rest cli); cbv zeta;
    [apply keeps_run_as_rest, Hf | apply keeps_run, Hf].
Qed.

Lemma keeps_edit {B} (f : State W -> B) object_type object_id organization_id data :
  (forall st e w t, f (mkState (self st) e w t (window st) (popups st)) = f st) ->
  keeps f (edit object_type object_id organization_id data).
Proof.
  intros Hf. unfold edit. unfold mbind, M_bind.
  apply keeps_bind; [apply keeps_gets|]. intros cli.
  destruct (use_rest cli); [apply keeps_run_as_rest, Hf|].
  apply keeps_bind; [apply keeps_encode, Hf|].
  intros encoded. apply keeps_run, Hf.
Qed.

Lemma keeps_org_collection {B} (f : State W -> B) organization_id collection_id data :
  (forall st e w t, f (mkState (self st) e w t (window st) (popups st)) = f st) ->
  keeps f (org_collection organization_id collection_id data).
Proof.
  intros Hf. unfold org_collection.
  destruct (Py.truthy data); [apply keeps_edit, Hf | apply keeps_get, Hf].
Qed.

Lemma keeps_append_output {B} (f : State W -> B) text :
  (forall st w, f (set_window w st) = f st) -> keeps f (append_output text).
Proof. intros Hf. apply keeps_modify. intros st. apply Hf. Qed.

Lemma keeps_submit_collection {B} (f : State W -> B)
  organization_id collection_id has_failures collection :
  (forall st e w t, f (mkState (self st) e w t (window st) (popups st)) = f st) ->
  (forall st w, f (set_window w st) = f st) ->
  keeps f (submit_collection organization_id collection_id has_failures collection).
Proof.
  intros Hf Hw. unfold submit_collection. unfold mbind, M_bind.
  apply keeps_bind; [apply keeps_org_collection, Hf|]. intros result.
  destruct (negb (Py.truthy result));
    (apply keeps_bind; [apply keeps_lift|]; intros name; cbv zeta;
     apply keeps_bind; [apply keeps_append_output, Hw|]; intros _;
     apply keeps_ret).
Qed.

Lemma keeps_report_error {B} (f : State W -> B) collection_id has_failures exc :
  (forall st w, f (set_window w st) = f st) ->
  keeps f (report_error collection_id has_failures exc).
Proof.
  intros Hw. unfold report_error. unfold mbind, M_bind. cbv zeta.
  apply keeps_bind; [apply keeps_append_output, Hw|]. intros _. apply keeps_ret.
Qed.

Lemma keeps_inherit_one {B} (f : State W -> B)
  organization_id user_permissions group_permissions has_failures collection_id :
  (forall st e w t, f (mkState (self st) e w t (window st) (popups st)) = f st) ->
  (forall st w, f (set_window w st) = f st) ->
  keeps f (inherit_one organization_id user_permissions group_permissions
             has_failures collection_id).
Proof.
  intros Hf Hw. unfold inherit_one. unfold mbind, M_bind.
  apply keeps_try_except; [|intros e; apply keeps_report_error, Hw].
  apply keeps_bind; [apply keeps_org_collection, Hf|]. intros collection.
  destruct (negb (Py.truthy collection)).
  - cbv zeta. apply keeps_bind; [apply keeps_append_output, Hw|].
    intros _. apply keeps_ret.
  - apply keeps_bind; [apply keeps_lift|]. intros _.
    apply keeps_bind; [apply keeps_lift|]. intros collection'.
    apply keeps_submit_collection; assumption.
Qed.

Lemma keeps_inherit_loop {B} (f : State W -> B)
  organization_id user_permissions group_permissions total targets index
  has_failures :
  (forall st e w t, f (mkState (self st) e w t (window st) (popups st)) = f st) ->
  (forall st w, f (set_window w st) = f st) ->
  keeps f (inherit_loop organization_id user_permissions group_permissions
             total targets index has_failures).
Proof.
  intros Hf Hw. revert index has_failures.
  induction targets as [|[i cid] rest IH]; intros index has_failures.
  - apply keeps_ret.
  - cbn [inherit_loop]. unfold mbind, M_bind.
    apply keeps_bind; [apply keeps_inherit_one; assumption|].
    intros [how hf]. apply keeps_bind.
    { destruct how; [apply keeps_ret|]. apply keeps_modify. intros st. apply Hw. }
    intros _. apply IH.
Qed.

End FrameFacts.

(** ** More about the inheritance dialog *)

Section InheritMore.

Context {W : Type} {V : Vault W} {L : PyLib}.

Lemma frame_popups (st : State W) e (w : W) t :
  popups (mkState (self st) e w t (window st) (popups st)) = popups st.
Proof. reflexivity. Qed.

Lemma frame_self (st : State W) e (w : W) t :
  self (mkState (self st) e w t (window st) (popups st)) = self st.
Proof. reflexivity. Qed.

Lemma inherit_one_returns organization_id user_permissions group_permissions
  has_failures collection_id (st : State W) :
  exists how flag,
    (inherit_one organization_id user_permissions group_permissions
       has_failures collection_id st).1 = Ret (how, flag)
    /\ (flag = has_failures \/ flag = true).
Proof.
  unfold inherit_one, try_except.
  match goal with
  | |- context [match ?body st with _ => _ end] =>
      destruct (body st) as [[[how flag]|e] st'] eqn:Hbody
  end.
  - exists how, flag. split; [reflexivity|].
    revert Hbody. unfold submit_collection.
    unfold mbind, M_bind, bind, lift, append_output, modify, ret.
    repeat case_match; intros; simplify_eq; auto.
  - unfold report_error. unfold mbind, M_bind, bind, append_output, modify, ret.
    cbn. eauto.
Qed.

Lemma inherit_loop_returns organization_id user_permissions group_permissions
  total (l : list string) :
  forall a index has_failures (st : State W),
  exists index' flag,
    (inherit_loop organization_id user_permissions group_permissions total
       (zip (seq a (length l)) l) index has_failures st).1
    = Ret (index', flag)
    /\ (l = [] -> index' = index)
    /\ (l <> [] -> index' = Z.of_nat (a + length l - 1))
    /\ (has_failures = true -> flag = true).
Proof.
  induction l as [|cid l IH]; intros a index has_failures st.
  - exists index, has_failures. cbn. repeat split; congruence.
  - cbn [length seq zip zip_with inherit_loop].
    unfold mbind, M_bind, bind.
    destruct (inherit_one_returns organization_id user_permissions
                group_permissions has_failures cid st)
      as (how & flag & Hone & Hflag).
    destruct (inherit_one _ _ _ _ _ st) as [o st1]. cbn in Hone. subst o.
    cbv beta iota zeta.
    assert (exists st2,
               match how with
               | Continue => ret ()
               | Next => set_progress (progress_line (a + 1) total)
               end st1 = (Ret tt, st2)) as [st2 ->].
    { destruct how; eexists; reflexivity. }
    destruct (IH (S a) (Z.of_nat a) flag st2) as (index' & flag' & Hr & Hnil & Hcons & Hsticky).
    exists index', flag'. split; [exact Hr|]. split; [discriminate|]. split.
    + intros _. destruct l as [|c l'].
      * rewrite Hnil by reflexivity. cbn. f_equal. lia.
      * rewrite Hcons by discriminate. cbn [length]. f_equal. lia.
    + intros ->. apply Hsticky. destruct Hflag; assumption.
Qed.

Lemma execute_action_returns organization_id collection_ids user_permissions
  group_permissions index (st : State W) :
  (-1 <= index)%Z ->
  exists index' p st',
    execute_action organization_id collection_ids user_permissions
      group_permissions index st = (Ret index', st')
    /\ (-1 <= index')%Z
    /\ popups st' = popups st ++ [p].
Proof.
  intros Hindex. unfold execute_action, enumerate.
  unfold mbind, M_bind, bind. unfold set_output, modify.
  cbv beta iota zeta.
  set (st0 := set_window _ st).
  destruct (inherit_loop_returns organization_id user_permissions
              group_permissions (length collection_ids) collection_ids
              0 index false st0) as (index' & flag & Hr & Hnil & Hcons & _).
  pose proof (keeps_inherit_loop popups organization_id user_permissions
                group_permissions (length collection_ids)
                (zip (seq 0 (length collection_ids)) collection_ids)
                index false frame_popups (fun _ _ => eq_refl) st0) as Hpop.
  destruct (inherit_loop _ _ _ _ _ _ _ st0) as [o st1]. cbn in Hr, Hpop.
  subst o. cbv beta iota zeta.
  assert ((index' >=? Z.of_nat (length collection_ids) - 1)%Z = true) as ->.
  { apply Z.geb_le. destruct collection_ids as [|c l].
    - rewrite Hnil by reflexivity. cbn. lia.
    - rewrite Hcons by discriminate. cbn [length]. lia. }
  assert (-1 <= index')%Z as Hindex'.
  { destruct collection_ids as [|c l].
    - rewrite Hnil by reflexivity. exact Hindex.
    - rewrite Hcons by discriminate. lia. }
  destruct flag; eexists index', _, _; (split; [reflexivity|]);
    (split; [exact Hindex'|]); cbn; rewrite Hpop; reflexivity.
Qed.

Lemma event_loop_returns organization_id collection_ids user_permissions
  group_permissions events :
  forall index (st : State W),
    (-1 <= index)%Z ->
    exists st',
      event_loop organization_id collection_ids user_permissions
        group_permissions events index st = (Ret tt, st')
      /\ length (popups st') = length (popups st) + presses events.
Proof.
  induction events as [|[ev|] events IH]; intros index st Hindex; cbn.
  - eexists. split; [reflexivity | lia].
  - destruct (String.eqb ev "Exit");
      [eexists; split; [reflexivity | cbn; lia]|].
    destruct (String.eqb ev "Execute action"); [|apply IH, Hindex].
    unfold mbind, M_bind, bind.
    destruct (execute_action_returns organization_id collection_ids
                user_permissions group_permissions index st Hindex)
      as (index' & p & st1 & -> & Hindex' & Hpop).
    destruct (IH index' st1 Hindex') as (st' & Hret & Hlen).
    exists st'. split; [exact Hret|]. rewrite Hlen, Hpop, length_app. cbn. lia.
  - eexists. split; [reflexivity | lia].
Qed.

(** X14: [inherit_permissions] never raises, whatever the vault answers
    and whatever is raised while a target is handled: it always comes back
    normally once the dialog is closed. *)
Theorem inherit_permissions_never_raises organization_id collection_ids
  user_permissions group_permissions events (st : State W) :
  (inherit_permissions organization_id collection_ids user_permissions
     group_permissions events st).1 = Ret tt.
Proof.
  unfold inherit_permissions. unfold mbind, M_bind, bind, modify.
  cbv beta iota zeta.
  destruct (event_loop_returns organization_id collection_ids user_permissions
              group_permissions events 0
              (set_window (mkWindow (progress_line 0 (length collection_ids)) "") st))
    as (st' & -> & _); [lia|].
  reflexivity.
Qed.

(** X15: every press of "Execute action" ends with exactly one popup,
    the success one or the error one: when the dialog is closed the
    number of popups shown is the number of presses, for any list of
    targets (the empty one included). *)
Theorem inherit_permissions_one_popup_per_run organization_id collection_ids
  user_permissions group_permissions events (st : State W) :
  length (popups (inherit_permissions organization_id collection_ids
                    user_permissions group_permissions events st).2)
  = length (popups st) + presses events.
Proof.
  unfold inherit_permissions. unfold mbind, M_bind, bind, modify.
  cbv beta iota zeta.
  destruct (event_loop_returns organization_id collection_ids user_permissions
              group_permissions events 0
              (set_window (mkWindow (progress_line 0 (length collection_ids)) "") st))
    as (st' & -> & Hlen); [lia|].
  exact Hlen.
Qed.

End InheritMore.

(** ** The inheritance dialog: what a run leaves behind *)

Section InheritFrames.

Context {W : Type} {V : Vault W} {L : PyLib}.



Lemma keeps_execute_action {B} (f : State W -> B)
  organization_id collection_ids user_permissions group_permissions index :
  (forall st e w t, f (mkState (self st) e w t (window st) (popups st)) = f st) ->
  (forall st w, f (set_window w st) = f st) ->
  (forall st p, f (add_popup p st) = f st) ->
  keeps f (execute_action organization_id collection_ids user_permissions
             group_permissions index).
Proof.
  intros Hf Hw Hp. unfold execute_action, set_output. unfold mbind, M_bind.
  apply keeps_bind; [apply keeps_modify; intros st; apply Hw|]. intros _.
  apply keeps_bind; [apply keeps_inherit_loop; assumption|].
  intros [index' flag]. apply keeps_bind; [|intros _; apply keeps_ret].
  destruct (index' >=? _)%Z; [|apply keeps_ret].
  destruct flag; apply keeps_modify; intros st; apply Hp.
Qed.

Lemma keeps_event_loop {B} (f : State W -> B)
  organization_id collection_ids user_permissions group_permissions events :
  (forall st e w t, f (mkState (self st) e w t (window st) (popups st)) = f st) ->
  (forall st w, f (set_window w st) = f st) ->
  (forall st p, f (add_popup p st) = f st) ->
  forall index,
    keeps f (event_loop organization_id collection_ids user_permissions
               group_permissions events index).
Proof.
  intros Hf Hw Hp.
  induction events as [|[ev|] events IH]; intros index; cbn [event_loop].
  - apply keeps_ret.
  - destruct (String.eqb ev "Exit"); [apply keeps_ret|].
    destruct (String.eqb ev "Execute action"); [|apply IH].
    unfold mbind, M_bind. apply keeps_bind.
    + apply keeps_execute_action; assumption.
    + intros index'. apply IH.
  - apply keeps_ret.
Qed.

(** X16: the inheritance dialog never changes the client object: the
    session token, the mode and the marker of the running server are
    after any run, successful or not, what they were before. *)
Theorem inherit_permissions_keeps_client organization_id collection_ids
  user_permissions group_permissions events (st : State W) :
  self (inherit_permissions organization_id collection_ids user_permissions
          group_permissions events st).2 = self st.
Proof.
  unfold inherit_permissions. unfold mbind, M_bind.
  apply (keeps_bind self); [apply keeps_modify; reflexivity|].
  intros _. apply keeps_event_loop; reflexivity.
Qed.

Lemma event_loop_empty_targets organization_id user_permissions
  group_permissions events :
  forall index (st : State W),
    (-1 <= index)%Z ->
    event_loop organization_id [] user_permissions group_permissions events
      index st
    = (Ret tt,
       if (presses events =? 0)%nat then st
       else mkState (self st) (environ st) (world st) (trace st)
              (mkWindow (progress_text (window st)) "")
              (popups st
               ++ replicate (presses events)
                    (Popup "All collections updated successfully."))).
Proof.
  induction events as [|[ev|] events IH]; intros index st Hindex;
    cbn [event_loop presses]; try reflexivity.
  destruct (String.eqb ev "Exit"); [reflexivity|].
  destruct (String.eqb ev "Execute action"); [|apply IH, Hindex].
  unfold execute_action, enumerate. cbn [length seq zip zip_with inherit_loop].
  unfold mbind, M_bind, bind, set_output, modify, ret. cbv beta iota zeta.
  assert ((index >=? Z.of_nat 0 - 1)%Z = true) as -> by (apply Z.geb_le; cbn; lia).
  cbv beta iota zeta. rewrite IH by exact Hindex.
  f_equal. cbn [Nat.eqb].
  destruct (presses events) as [|n]; cbn [Nat.eqb replicate].
  - unfold add_popup, set_window. cbn. reflexivity.
  - unfold add_popup, set_window. cbn. rewrite <- app_assoc. reflexivity.
Qed.

(** X17: with an empty list of targets the dialog makes no call to the
    vault at all, and every press of "Execute action" still shows the
    success popup. *)
Theorem inherit_permissions_empty_targets organization_id user_permissions
  group_permissions events (st : State W) :
  let st' := (inherit_permissions organization_id [] user_permissions
                group_permissions events st).2 in
  trace st' = trace st
  /\ world st' = world st
  /\ environ st' = environ st
  /\ popups st'
     = popups st ++ replicate (presses events)
                      (Popup "All collections updated successfully.").
Proof.
  unfold inherit_permissions. unfold mbind, M_bind, bind, modify.
  cbv beta iota zeta. rewrite event_loop_empty_targets by lia.
  destruct (presses events); cbn; rewrite ?app_nil_r; repeat split.
Qed.







End InheritFrames.

Section InheritFramesRuns.

#[local] Existing Instances Sim.vault Sim.pylib.


End InheritFramesRuns.

(** ** Further facts about the object methods *)

Section ObjectMore.

Context {W : Type} {V : Vault W} {L : PyLib}.

(** X19: [collection(id)] is [get("collection", id)] for a client in
    process mode, but not for a client in REST mode: there [get] asks
    the sidecar and starts no process, while [collection] still starts
    the executable and makes no request. *)
Theorem collection_bypasses_rest_mode id_collection (st : State W) :
  (use_rest (self st) = false ->
   collection (Some id_collection) st
   = get "collection" (Some id_collection) None st)
  /\ (use_rest (self st) = true ->
      trace (collection (Some id_collection) st).2
      = trace st
        ++ [Exec (run_command [Some "get"; Some "collection";
                               Some id_collection] st)
              (child_env true st)]
      /\ trace (get "collection" (Some id_collection) None st).2
         = trace st
           ++ rest_events (get_path "collection" (Some id_collection) None)
                JNull st).
Proof.
  split.
  - intros Hmode. unfold collection, get. open_binds. rewrite Hmode.
    reflexivity.
  - intros Hmode. split.
    + unfold collection. rewrite run_eq. reflexivity.
    + unfold get. open_binds. rewrite Hmode. cbv beta iota zeta.
      rewrite run_as_rest_eq by exact Hmode. reflexivity.
Qed.


Lemma lstrip_rstrip_fixed (s : string) :
  PyStr.lstrip s = s -> PyStr.lstrip (PyStr.rstrip s) = PyStr.rstrip s.
Proof.
  destruct s as [|c r]; [reflexivity|]. cbn [PyStr.lstrip PyStr.rstrip].
  destruct (PyStr.isspace c) eqn:Hc.
  - intros Hl. exfalso.
    assert (String.length (PyStr.lstrip r) <= String.length r) as Hlen.
    { clear. induction r as [|x r IH]; cbn; [lia|].
      destruct (PyStr.isspace x); cbn; lia. }
    rewrite Hl in Hlen. cbn in Hlen. lia.
  - intros _. destruct (PyStr.rstrip r); cbn [PyStr.lstrip]; rewrite Hc;
      reflexivity.
Qed.

Lemma lstrip_idemp (s : string) : PyStr.lstrip (PyStr.lstrip s) = PyStr.lstrip s.
Proof.
  induction s as [|c r IH]; [reflexivity|]. cbn [PyStr.lstrip].
  destruct (PyStr.isspace c) eqn:Hc; [exact IH|].
  cbn [PyStr.lstrip]. rewrite Hc. reflexivity.
Qed.

Lemma rstrip_idemp (s : string) : PyStr.rstrip (PyStr.rstrip s) = PyStr.rstrip s.
Proof.
  induction s as [|c r IH]; [reflexivity|]. cbn [PyStr.rstrip].
  destruct (PyStr.rstrip r) as [|x r'] eqn:Hr.
  - destruct (PyStr.isspace c) eqn:Hc; [reflexivity|].
    cbn [PyStr.rstrip]. rewrite Hc. reflexivity.
  - cbn [PyStr.rstrip] in *. rewrite IH. reflexivity.
Qed.

Lemma strip_idemp (s : string) : PyStr.strip (PyStr.strip s) = PyStr.strip s.
Proof.
  unfold PyStr.strip.
  rewrite (lstrip_rstrip_fixed (PyStr.lstrip s) (lstrip_idemp s)).
  apply rstrip_idemp.
Qed.

(** X21: a text that [encode] returns carries no surrounding whitespace:
    [strip] leaves it as it is, whatever the executable printed around
    it, so [edit] appends it to its argument list without a trailing
    line feed. *)
Theorem encode_result_is_stripped data (st : State W) encoded :
  (encode data st).1 = Ret (Some encoded) ->
  PyStr.strip encoded = encoded.
Proof.
  unfold encode, mbind, M_bind, bind, gets, call_command_runner, raise, ret.
  cbv beta iota zeta.
  destruct (match data with JObj d => JStr (json_dumps d) | _ => data end);
    cbn; try discriminate.
  destruct (command_runner _ _ _) as [[code out] w]. cbn.
  destruct (code =? 0)%Z; cbn; [|discriminate].
  intros [= <-]. apply strip_idemp.
Qed.

End ObjectMore.

Section ObjectMoreRuns.

#[local] Existing Instances Sim.vault Sim.pylib.

Lemma collection_bypasses_rest_mode_witness :
  (use_rest (self Scenario.with_token) = false
   /\ collection (Some "c1") Scenario.with_token
      = get "collection" (Some "c1") None Scenario.with_token)
  /\ (use_rest (self Scenario.rest_parent) = true
      /\ trace (collection (Some "c1") Scenario.rest_parent).2
         = trace Scenario.rest_parent
           ++ [Exec (run_command [Some "get"; Some "collection"; Some "c1"]
                       Scenario.rest_parent)
                 (child_env true Scenario.rest_parent)]).
Proof.
  assert (use_rest (self Scenario.with_token) = false) as H by reflexivity.
  assert (use_rest (self Scenario.rest_parent) = true) as H' by reflexivity.
  split; (split; [assumption|]).
  - exact (proj1 (collection_bypasses_rest_mode "c1" Scenario.with_token) H).
  - exact (proj1 (proj2 (collection_bypasses_rest_mode "c1" Scenario.rest_parent)
                    H')).
Defined.

Lemma encode_result_is_stripped_witness :
  (encode (JObj Scenario.child_fields) Scenario.encode_accepted).1
  = Ret (Some "eyJvYmplY3QiOiJvcmctY29sbGVjdGlvbiJ9")
  /\ PyStr.strip "eyJvYmplY3QiOiJvcmctY29sbGVjdGlvbiJ9" = "eyJvYmplY3QiOiJvcmctY29sbGVjdGlvbiJ9".
Proof.
  assert ((encode (JObj Scenario.child_fields) Scenario.encode_accepted).1
          = Ret (Some "eyJvYmplY3QiOiJvcmctY29sbGVjdGlvbiJ9")) as H by reflexivity.
  split; [exact H|].
  exact (encode_result_is_stripped _ _ _ H).
Defined.

End ObjectMoreRuns.

(** ** Key obfuscation *)

Section ObfuscationFacts.

Import Obfuscation.

Lemma keyword_at_range (i : nat) : (0 < keyword_at i < 128)%Z.
Proof.
  unfold keyword_at.
  assert (Forall (fun k => 0 < k < 128)%Z keyword) as Hall.
  { unfold keyword. cbn. repeat constructor; lia. }
  apply (proj1 (Forall_nth (fun k => (0 < k < 128)%Z) 0%Z keyword) Hall).
  apply Nat.mod_upper_bound. discriminate.
Qed.

Lemma lxor_byte (a b : Z) : is_byte a -> is_byte b -> is_byte (Z.lxor a b).
Proof.
  unfold is_byte. intros [Ha Ha'] [Hb Hb'].
  assert (0 <= Z.lxor a b)%Z as Hnn by (apply Z.lxor_nonneg; tauto).
  split; [exact Hnn|].
  assert (forall x, 0 <= x < 256 -> Z.log2 x < 8)%Z as Hlog.
  { intros x [Hx Hx']. destruct (Z.eq_dec x 0%Z) as [->|Hz]; [cbn; lia|].
    apply (Z.log2_lt_pow2 x 8); lia. }
  destruct (Z.eq_dec (Z.lxor a b) 0%Z) as [Hz|Hz]; [lia|].
  change 256%Z with (2 ^ 8)%Z. apply Z.log2_lt_pow2; [lia|].
  pose proof (Z.log2_lxor a b Ha Hb) as Hmax.
  pose proof (Hlog a (conj Ha Ha')). pose proof (Hlog b (conj Hb Hb')). lia.
Qed.

Lemma lxor_twice (c k : Z) : Z.lxor (Z.lxor c k) k = c.
Proof. rewrite Z.lxor_assoc, Z.lxor_nilpotent, Z.lxor_0_r. reflexivity. Qed.

Lemma lxor_changes (c k : Z) : k <> 0%Z -> Z.lxor c k <> c.
Proof.
  intros Hk Heq. apply Hk.
  assert (Z.lxor c (Z.lxor c k) = k) as H
    by (rewrite <- Z.lxor_assoc, Z.lxor_nilpotent, Z.lxor_0_l; reflexivity).
  rewrite Heq, Z.lxor_nilpotent in H. symmetry. exact H.
Qed.

Lemma xor_from_twice (key : list Z) :
  forall i, xor_from i (xor_from i key) = key.
Proof.
  induction key as [|c rest IH]; intros i; cbn [xor_from]; [reflexivity|].
  rewrite lxor_twice, IH. reflexivity.
Qed.

Lemma xor_from_length (key : list Z) :
  forall i, length (xor_from i key) = length key.
Proof.
  induction key as [|c rest IH]; intros i; cbn; [reflexivity|].
  rewrite IH. reflexivity.
Qed.

Lemma xor_from_bytes (key : list Z) :
  Forall is_byte key -> forall i, Forall is_byte (xor_from i key).
Proof.
  induction 1 as [|c rest Hc Hrest IH]; intros i; cbn [xor_from];
    constructor; [|apply IH].
  apply lxor_byte; [exact Hc|].
  pose proof (keyword_at_range i). unfold is_byte. lia.
Qed.

Lemma xor_from_lookup (key : list Z) :
  forall i j c, key !! j = Some c ->
    xor_from i key !! j = Some (Z.lxor c (keyword_at (i + j))).
Proof.
  induction key as [|x rest IH]; intros i j c Hj; [discriminate|].
  destruct j as [|j]; cbn [xor_from].
  - cbn in Hj. injection Hj as ->. rewrite Nat.add_0_r. reflexivity.
  - replace (i + S j) with (S i + j) by lia. exact (IH (S i) j c Hj).
Qed.

Lemma obfuscation_eq (key : list Z) : obfuscation key = xor_from 0 key.
Proof. destruct key; reflexivity. Qed.

(** X22: [obfuscation] undoes itself: obfuscating an obfuscated key gives
    the key back, for a key of any length, the empty one included. *)
Theorem obfuscation_is_an_involution (key : list Z) :
  obfuscation (obfuscation key) = key.
Proof. rewrite !obfuscation_eq. apply xor_from_twice. Qed.

(** X23: [obfuscation] turns bytes into as many bytes (the [bytes]
    constructor is never handed a value outside [range(256)]), and no byte
    stays what it was: the keyword has no zero byte, so a key is nowhere
    stored as it is. *)
Theorem obfuscation_changes_every_byte (key : list Z) :
  Forall is_byte key ->
  length (obfuscation key) = length key
  /\ Forall is_byte (obfuscation key)
  /\ forall i c, key !! i = Some c ->
       exists c', obfuscation key !! i = Some c' /\ c' <> c.
Proof.
  intros Hkey. rewrite obfuscation_eq.
  split; [apply xor_from_length|]. split; [apply xor_from_bytes, Hkey|].
  intros i c Hi. eexists. split; [apply xor_from_lookup, Hi|].
  apply lxor_changes. pose proof (keyword_at_range (0 + i)). lia.
Qed.

Lemma obfuscation_changes_every_byte_witness :
  Forall is_byte [0; 47; 255]%Z
  /\ length (obfuscation [0; 47; 255]%Z) = 3
  /\ obfuscation [0; 47; 255]%Z = [47; 5; 157]%Z.
Proof.
  assert (Forall is_byte [0; 47; 255]%Z) as H
    by (repeat constructor; unfold is_byte; lia).
  split; [exact H|]. split.
  - exact (proj1 (obfuscation_changes_every_byte _ H)).
  - reflexivity.
Defined.

End ObfuscationFacts.

(** ** Dotted paths into the configuration *)

Section ConfigurationFacts.

Import Configuration.

Lemma dict_get_del_eq (fields : dict) k :
  Py.dict_get (dict_del fields k) k = None.
Proof.
  induction fields as [|[k' v'] rest IH]; cbn; [reflexivity|].
  destruct (String.eqb k' k) eqn:Hk; cbn; rewrite ?Hk; exact IH.
Qed.

Lemma last_removelast (keys : list string) lastkey :
  last keys = Some lastkey -> keys = removelast keys ++ [lastkey].
Proof.
  induction keys as [|k [|k' rest] IH]; cbn; intros H; try discriminate.
  - injection H as ->. reflexivity.
  - f_equal. apply IH. exact H.
Qed.

Lemma lookup_path_app data keys keys' :
  lookup_path data (keys ++ keys')
  = match lookup_path data keys with
    | Ret inner => lookup_path inner keys'
    | Raise e => Raise e
    end.
Proof.
  revert data. induction keys as [|k rest IH]; intros data; cbn; [reflexivity|].
  destruct (Py.getitem data k); [apply IH | reflexivity].
Qed.

Lemma getitem_ret data k v :
  Py.getitem data k = Ret v ->
  exists fields, data = JObj fields /\ Py.dict_get fields k = Some v.
Proof.
  destruct data; cbn; try discriminate.
  destruct (Py.dict_get fields k) eqn:Hg; [|discriminate].
  intros [= ->]. eauto.
Qed.

Lemma update_at_lookup f keys :
  forall data data',
    update_at f keys data = Ret data' ->
    exists target target',
      lookup_path data keys = Ret target /\ f target = Ret target'
      /\ lookup_path data' keys = Ret target'.
Proof.
  induction keys as [|k rest IH]; intros data data'; cbn.
  - eauto.
  - destruct (Py.getitem data k) as [inner|e] eqn:Hg; [|discriminate].
    destruct (update_at f rest inner) as [inner'|e] eqn:Hu; [|discriminate].
    apply getitem_ret in Hg as (fields & -> & Hget). cbn.
    intros [= <-]. cbn. rewrite dict_get_set_eq.
    apply IH in Hu as (t & t' & Hl & Hf & Hl'). eauto.
Qed.

Lemma update_at_runs f keys :
  forall data target,
    lookup_path data keys = Ret target ->
    match f target with
    | Ret _ => exists data', update_at f keys data = Ret data'
    | Raise e => update_at f keys data = Raise e
    end.
Proof.
  induction keys as [|k rest IH]; intros data target; cbn.
  - intros [= ->]. destruct (f target); eauto.
  - destruct (Py.getitem data k) as [inner|e] eqn:Hg; [|discriminate].
    intros Hl. specialize (IH inner target Hl).
    apply getitem_ret in Hg as (fields & -> & _).
    destruct (f target).
    + destruct IH as [inner' ->]. cbn. eauto.
    + rewrite IH. reflexivity.
Qed.

Lemma update_at_raises f keys :
  forall data e, lookup_path data keys = Raise e -> update_at f keys data = Raise e.
Proof.
  induction keys as [|k rest IH]; intros data e; cbn; [discriminate|].
  destruct (Py.getitem data k) as [inner|e']; [|exact id].
  intros Hl. rewrite (IH inner e Hl). reflexivity.
Qed.

Lemma setitem_keeps_other_paths lastkey value keys :
  forall data data' keys',
    update_at (fun data => Py.setitem data lastkey value) keys data = Ret data' ->
    ~ (keys ++ [lastkey]) `prefix_of` keys' ->
    ~ keys' `prefix_of` (keys ++ [lastkey]) ->
    lookup_path data' keys' = lookup_path data keys'.
Proof.
  induction keys as [|k rest IH]; intros data data' keys'; cbn.
  - intros Hs Hp Hp'. destruct keys' as [|k' r'].
    { exfalso. apply Hp', prefix_nil. }
    destruct data; try discriminate. cbn in Hs. injection Hs as <-.
    cbn. rewrite dict_get_set_ne; [reflexivity|].
    intros <-. apply Hp. apply prefix_cons, prefix_nil.
  - destruct (Py.getitem data k) as [inner|e] eqn:Hg; [|discriminate].
    destruct (update_at _ rest inner) as [inner'|e] eqn:Hu; [|discriminate].
    apply getitem_ret in Hg as (fields & -> & Hget). cbn.
    intros [= <-] Hp Hp'. destruct keys' as [|k' r'].
    { exfalso. apply Hp', prefix_nil. }
    cbn. destruct (String.eqb_spec k k') as [<-|Hne].
    + rewrite dict_get_set_eq, Hget.
      apply (IH inner inner' r' Hu).
      * intros H. apply Hp. apply prefix_cons, H.
      * intros H. apply Hp'. apply prefix_cons, H.
    + rewrite dict_get_set_ne by exact Hne. reflexivity.
Qed.

Lemma split_from_last sep path :
  forall skip cur, exists k, last (split_from sep skip cur path) = Some k.
Proof.
  induction path as [|c rest IH]; intros skip cur; cbn [split_from]; [eauto|].
  destruct skip; [|apply IH].
  destruct (String.prefix sep (String c rest)); [|apply IH].
  destruct (IH (String.length sep - 1) "") as [k Hk].
  exists k. destruct (split_from _ _ _ rest); [discriminate | exact Hk].
Qed.

Lemma split_last sep path keys :
  split sep path = Some keys -> exists k, last keys = Some k.
Proof.
  unfold split. destruct sep; [discriminate|]. intros [= <-].
  apply split_from_last.
Qed.

(** X24: when [s] returns, the value is what the path now leads to:
    reading the configuration key by key along the path gives the value
    that was set. *)
Theorem s_then_lookup self path value sep self' :
  s self path value sep = Done self' ->
  exists keys,
    split sep path = Some keys /\ lookup_path self' keys = Ret value.
Proof.
  unfold s. destruct (split sep path) as [keys|]; [|discriminate].
  destruct (last keys) as [lastkey|] eqn:Hlast; [|discriminate].
  destruct (update_at _ (removelast keys) self) as [r|e] eqn:Hu; [|discriminate].
  intros [= <-]. exists keys. split; [reflexivity|].
  apply update_at_lookup in Hu as (t & t' & _ & Hset & Hl').
  rewrite (last_removelast keys lastkey Hlast), lookup_path_app, Hl'.
  destruct t; try discriminate. cbn in Hset. injection Hset as <-.
  cbn. rewrite dict_get_set_eq. reflexivity.
Qed.

(** X25: [s] changes nothing beside the path it is given: any other
    path, neither a beginning of the one set nor a continuation of it,
    leads after [s] to what it led to before (or raises as before). *)
Theorem s_keeps_other_paths self path value sep self' keys keys' :
  s self path value sep = Done self' ->
  split sep path = Some keys ->
  ~ keys `prefix_of` keys' ->
  ~ keys' `prefix_of` keys ->
  lookup_path self' keys' = lookup_path self keys'.
Proof.
  unfold s. intros Hs Hsplit. rewrite Hsplit in Hs.
  destruct (last keys) as [lastkey|] eqn:Hlast; [|discriminate].
  destruct (update_at _ (removelast keys) self) as [r|e] eqn:Hu; [|discriminate].
  injection Hs as <-.
  rewrite (last_removelast keys lastkey Hlast).
  apply (setitem_keeps_other_paths lastkey value _ _ _ _ Hu).
Qed.

(** X26: [s] creates the last key of the path when it is missing, but
    none before it: it returns exactly when the path without its last
    key leads to a [dict]; when that walk raises ([KeyError] for a missing
    key, [TypeError] below a value that is no [dict]), [s] raises the
    same exception. *)
Theorem s_needs_existing_parents self path value sep keys :
  split sep path = Some keys ->
  ((exists self', s self path value sep = Done self')
   <-> exists fields, lookup_path self (removelast keys) = Ret (JObj fields))
  /\ (forall e, lookup_path self (removelast keys) = Raise e ->
        s self path value sep = Failed (Lookup e)).
Proof.
  intros Hsplit. unfold s. rewrite Hsplit.
  destruct (split_last _ _ _ Hsplit) as [lastkey Hlast].
  rewrite Hlast. split; [split|].
  - intros [self' Hs].
    destruct (update_at _ (removelast keys) self) as [r|e] eqn:Hu; [|discriminate].
    apply update_at_lookup in Hu as (t & t' & Hl & Hset & _).
    destruct t; try discriminate. eauto.
  - intros [fields Hl].
    pose proof (update_at_runs (fun data => Py.setitem data lastkey value)
                  _ _ _ Hl) as Hrun.
    cbn in Hrun. destruct Hrun as [data' ->]. eauto.
  - intros e Hl. rewrite (update_at_raises _ _ _ _ Hl). reflexivity.
Qed.

(** X27: [d] takes the last key of the path out of the [dict] the path
    leads to: afterwards the path raises [KeyError]. When the path leads
    nowhere because a key is missing, at the end or on the way, [d]
    returns normally and the configuration is what it was. *)
Theorem d_removes_or_ignores self path sep keys :
  split sep path = Some keys ->
  (forall value, lookup_path self keys = Ret value ->
     exists self' k,
       d self path sep = Done self'
       /\ last keys = Some k
       /\ lookup_path self' keys = Raise (KeyError k))
  /\ (forall k, lookup_path self keys = Raise (KeyError k) ->
        d self path sep = Done self).
Proof.
  intros Hsplit. unfold d. rewrite Hsplit.
  destruct (split_last _ _ _ Hsplit) as [lastkey Hlast]. rewrite Hlast.
  pose proof (last_removelast keys lastkey Hlast) as Hkeys.
  set (init := removelast keys) in *.
  split.
  - intros value Hl. rewrite Hkeys, lookup_path_app in Hl.
    destruct (lookup_path self init) as [t|e] eqn:Hinit; [|discriminate].
    cbn in Hl. destruct (Py.getitem t lastkey) as [v|e] eqn:Hg; [|discriminate].
    apply getitem_ret in Hg as (fields & -> & Hget).
    pose proof (update_at_runs (fun data => pop data lastkey) _ _ _ Hinit) as Hrun.
    cbn in Hrun. rewrite Hget in Hrun. destruct Hrun as [data' Hu].
    rewrite Hu. exists data', lastkey. split; [reflexivity|]. split; [reflexivity|].
    apply update_at_lookup in Hu as (t & t' & Ht & Hpop & Hl').
    rewrite Hinit in Ht. injection Ht as <-. cbn in Hpop. rewrite Hget in Hpop.
    injection Hpop as <-.
    rewrite Hkeys, lookup_path_app, Hl'. cbn. rewrite dict_get_del_eq.
    reflexivity.
  - intros k Hl. rewrite Hkeys, lookup_path_app in Hl.
    destruct (lookup_path self init) as [t|e] eqn:Hinit.
    + cbn in Hl. destruct (Py.getitem t lastkey) as [v|e] eqn:Hg; [discriminate|].
      injection Hl as ->.
      pose proof (update_at_runs (fun data => pop data lastkey) _ _ _ Hinit) as Hrun.
      destruct t; cbn in Hg; try discriminate.
      cbn in Hrun. destruct (Py.dict_get fields lastkey); [discriminate|].
      rewrite Hrun. reflexivity.
    + injection Hl as ->. rewrite (update_at_raises _ _ _ _ Hinit). reflexivity.
Qed.

Lemma s_then_lookup_witness :
  s (empty_config_dict "1.0") "admin_api.credentials.username"
    (JStr "me@example.org") "."
  = Done (JObj
      [("conf_version", JStr "1.0");
       ("admin_api",
        JObj [("url", JStr "https://vault.bitwarden.com");
              ("credentials",
               JObj [("username", JStr "me@example.org"); ("password", JNull);
                     ("client_id", JNull); ("client_secret", JNull);
                     ("api_key", JNull); ("api_key_id", JNull)]);
              ("bw_executable", JStr "bw");
              ("use_rest", JBool true)])])
  /\ exists keys,
       split "." "admin_api.credentials.username" = Some keys
       /\ lookup_path
            (JObj
               [("conf_version", JStr "1.0");
                ("admin_api",
                 JObj [("url", JStr "https://vault.bitwarden.com");
                       ("credentials",
                        JObj [("username", JStr "me@example.org");
                              ("password", JNull);
                              ("client_id", JNull); ("client_secret", JNull);
                              ("api_key", JNull); ("api_key_id", JNull)]);
                       ("bw_executable", JStr "bw");
                       ("use_rest", JBool true)])]) keys
          = Ret (JStr "me@example.org").
Proof.
  assert (s (empty_config_dict "1.0") "admin_api.credentials.username"
            (JStr "me@example.org") "." = Done _) as H by reflexivity.
  split; [exact H|].
  exact (s_then_lookup _ _ _ _ _ H).
Defined.

Lemma s_keeps_other_paths_witness :
  exists self',
    s (empty_config_dict "1.0") "admin_api.url" (JStr "https://bw.local") "."
    = Done self'
    /\ lookup_path self' ["admin_api"; "credentials"; "password"]
       = lookup_path (empty_config_dict "1.0")
           ["admin_api"; "credentials"; "password"].
Proof.
  eexists.
  assert (s (empty_config_dict "1.0") "admin_api.url" (JStr "https://bw.local")
            "." = Done _) as H by reflexivity.
  split; [exact H|].
  apply (s_keeps_other_paths _ _ _ _ _ ["admin_api"; "url"] _ H eq_refl).
  - intros [k Hk]. discriminate.
  - intros [k Hk]. discriminate.
Defined.

Lemma s_needs_existing_parents_witness :
  split "." "proxy.url" = Some ["proxy"; "url"]
  /\ s (empty_config_dict "1.0") "proxy.url" (JStr "x") "."
     = Failed (Lookup (KeyError "proxy")).
Proof.
  assert (split "." "proxy.url" = Some ["proxy"; "url"]) as H by reflexivity.
  split; [exact H|].
  apply (proj2 (s_needs_existing_parents (empty_config_dict "1.0") "proxy.url"
                  (JStr "x") "." _ H)).
  reflexivity.
Defined.

Lemma d_removes_or_ignores_witness :
  split "." "admin_api.use_rest" = Some ["admin_api"; "use_rest"]
  /\ (exists self' k,
        d (empty_config_dict "1.0") "admin_api.use_rest" "." = Done self'
        /\ last ["admin_api"; "use_rest"] = Some k
        /\ lookup_path self' ["admin_api"; "use_rest"] = Raise (KeyError k))
  /\ d (empty_config_dict "1.0") "proxy.url" "."
     = Done (empty_config_dict "1.0").
Proof.
  assert (split "." "admin_api.use_rest" = Some ["admin_api"; "use_rest"])
    as H by reflexivity.
  assert (split "." "proxy.url" = Some ["proxy"; "url"]) as H' by reflexivity.
  split; [exact H|]. split.
  - apply (proj1 (d_removes_or_ignores (empty_config_dict "1.0")
                    "admin_api.use_rest" "." _ H) (JBool true)).
    reflexivity.
  - apply (proj2 (d_removes_or_ignores (empty_config_dict "1.0")
                    "proxy.url" "." _ H') "proxy").
    reflexivity.
Defined.

End ConfigurationFacts.

(** ** Which configuration keys are encrypted *)

Section EncryptedKeys.

Import Configuration.

Lemma prefix_spec (p t : string) :
  String.prefix p t = true <-> exists post, t = p +:+ post.
Proof.
  revert t. induction p as [|c p IH]; intros t.
  - split; [intros _; exists t; reflexivity | intros _; destruct t; reflexivity].
  - destruct t as [|c' t]; cbn;
      [split; [discriminate | intros [post H]; discriminate]|].
    destruct (Ascii.ascii_dec c c') as [->|Hne].
    + rewrite IH. split; intros [post H]; exists post.
      * rewrite H. reflexivity.
      * change (String c' t = String c' (p +:+ post)) in H. congruence.
    + split; [discriminate|]. intros [post H].
      change (String c' t = String c (p +:+ post)) in H. congruence.
Qed.

Lemma contains_spec (haystack needle : string) :
  contains haystack needle = true
  <-> exists pre post, haystack = pre +:+ needle +:+ post.
Proof.
  induction haystack as [|c rest IH]; cbn [contains]; rewrite orb_true_iff.
  - rewrite prefix_spec. split.
    + intros [[post H]|]; [|discriminate]. exists "", post. exact H.
    + intros (pre & post & H). left. destruct pre; [|discriminate].
      exists post. exact H.
  - rewrite prefix_spec, IH. split.
    + intros [[post H]|(pre & post & H)].
      * exists "", post. exact H.
      * exists (String c pre), post. rewrite H. reflexivity.
    + intros (pre & post & H). destruct pre as [|c' pre].
      * left. exists post. exact H.
      * right. exists pre, post.
        change (String c rest = String c' (pre +:+ needle +:+ post)) in H.
        congruence.
Qed.

(** X28: a key is encrypted exactly when it is not empty and one of the
    options occurs somewhere inside it: the options are matched as
    substrings, so a longer key that merely contains an option is
    encrypted too, and [None] and the empty key never are. *)
Theorem key_should_be_encrypted_matches_substrings key encrypted_options :
  key_should_be_encrypted key encrypted_options = true
  <-> exists text option pre post,
        key = Some text /\ text <> ""
        /\ In option encrypted_options
        /\ text = pre +:+ option +:+ post.
Proof.
  unfold key_should_be_encrypted. split.
  - destruct key as [text|]; [|discriminate].
    destruct text as [|c text]; [discriminate|]. cbn [PyStr.nonempty].
    rewrite existsb_exists. intros (option & Hin & Hc).
    apply contains_spec in Hc as (pre & post & Hc).
    exists (String c text), option, pre, post. repeat split; try assumption.
    discriminate.
  - intros (text & option & pre & post & -> & Hne & Hin & Htext).
    destruct text as [|c text]; [contradiction|]. cbn [PyStr.nonempty].
    rewrite existsb_exists. exists option. split; [exact Hin|].
    apply contains_spec. eauto.
Qed.

Lemma key_should_be_encrypted_matches_substrings_witness :
  key_should_be_encrypted (Some "old.admin_api.credentials.password_hint")
    ["admin_api.credentials.password"; "admin_api.credentials.client_secret"]
  = true.
Proof.
  apply (proj2 (key_should_be_encrypted_matches_substrings _ _)).
  exists "old.admin_api.credentials.password_hint",
    "admin_api.credentials.password", "old.", "_hint".
  split; [reflexivity|]. split; [discriminate|].
  split; [left; reflexivity | reflexivity].
Defined.

End EncryptedKeys.
